(** * FIPS startup validation utilities: a shallow embedding

    The repository holds two C programs, [fips-startup-check.c] and
    [test-fips.c].  Each one is a single [main] that queries two
    preprocessor macros, calls five entry points of the wolfCrypt
    library, prints a report and returns an exit status.

    The embedding keeps that shape:
    - the macros form a [BuildConfig];
    - the library is a [Provider]: a state machine whose transitions
      are the five entry points, each yielding an [int] status;
    - [main] is written in a small monad that threads the provider
      state and an event trace and supports the C [return] statement;
    - the [for] statement is a combinator defined by well-founded
      recursion on the distance between the index and its bound. *)

From Stdlib Require Import ZArith List String Ascii Bool Lia.
From Stdlib.Strings Require Byte.
From Equations Require Import Equations.
Import ListNotations.

Open Scope Z_scope.

(** ** Data *)

(** C [int] values are only compared against constants and printed, never
    computed upon, so they are plain integers. *)
Abbreviation int := Z (only parsing).

(** wolfCrypt's [byte] is [unsigned char]. *)
Abbreviation byte := Byte.byte (only parsing).

Definition byte_to_int (b : byte) : int := Z.of_N (Byte.to_N b).

(** Modelled from the spec: [WC_SHA256_DIGEST_SIZE] is declared in the
    wolfCrypt header [sha256.h], which is not part of the sources; the
    digest is a 32-byte buffer. *)
Definition WC_SHA256_DIGEST_SIZE : Z := 32.

(** The two macros that [main] tests with [#ifdef].  The version macro
    is only looked at when [HAVE_FIPS] is defined. *)
Record BuildConfig : Type := {
  HAVE_FIPS : bool;
  HAVE_FIPS_VERSION : option int
}.

(** The seed callbacks the programs know of. *)
Inductive wc_RngSeed_Cb : Type :=
| wc_GenerateSeed.

(** ** The cryptography provider *)

(** [PS] is the library's process-wide state, [Sha] the contents of the
    [wc_Sha256] structure that the caller owns and passes by address. *)
Record Provider (PS Sha : Type) : Type := {
  wc_SetSeed_Cb : wc_RngSeed_Cb -> PS -> int * PS;
  wc_RunAllCast_fips : PS -> int * PS;
  wc_InitSha256 : PS -> (int * Sha) * PS;
  wc_Sha256Update : Sha -> list byte -> Z -> PS -> (int * Sha) * PS;
  wc_Sha256Final : Sha -> PS -> (int * Sha * list byte) * PS
}.

Arguments wc_SetSeed_Cb {PS Sha} _ _ _.
Arguments wc_RunAllCast_fips {PS Sha} _ _.
Arguments wc_InitSha256 {PS Sha} _ _.
Arguments wc_Sha256Update {PS Sha} _ _ _ _ _.
Arguments wc_Sha256Final {PS Sha} _ _ _.

(** ** Observable events *)

(** One event per [printf] and per library call, in program order.  A
    call event records the arguments that are data and what came back. *)
Inductive event : Type :=
| Ev_printf (fmt : string) (args : list int)
| Ev_SetSeed_Cb (cb : wc_RngSeed_Cb) (ret : int)
| Ev_RunAllCast_fips (ret : int)
| Ev_InitSha256 (ret : int)
| Ev_Sha256Update (data : list byte) (len : Z) (ret : int)
| Ev_Sha256Final (ret : int) (hash : list byte).

(** ** The execution monad *)

Record World (PS : Type) : Type := {
  provider_state : PS;
  trace : list event
}.

Arguments Build_World {PS} _ _.
Arguments provider_state {PS} _.
Arguments trace {PS} _.

(** A statement either falls through with a value or executes
    [return code], which ends [main]. *)
Inductive outcome (A : Type) : Type :=
| Normal (a : A)
| Returned (code : int).

Arguments Normal {A} _.
Arguments Returned {A} _.

Definition M (PS A : Type) : Type := World PS -> outcome A * World PS.

Definition pure {PS A} (a : A) : M PS A := fun w => (Normal a, w).

Definition bind {PS A B} (m : M PS A) (f : A -> M PS B) : M PS B :=
  fun w =>
    match m w with
    | (Normal a, w') => f a w'
    | (Returned c, w') => (Returned c, w')
    end.

Definition Return {PS A} (code : int) : M PS A := fun w => (Returned code, w).

Definition emit {PS} (e : event) : M PS unit :=
  fun w => (Normal tt, Build_World (provider_state w) (trace w ++ [e])).

Definition printf {PS} (fmt : string) (args : list int) : M PS unit :=
  emit (Ev_printf fmt args).

Definition when {PS} (b : bool) (m : M PS unit) : M PS unit :=
  if b then m else pure tt.

Declare Scope prog_scope.
Delimit Scope prog_scope with prog.
Notation "x <- m ;; k" := (bind m (fun x => k))
  (at level 61, m at next level, right associativity) : prog_scope.
Notation "m ;; k" := (bind m (fun _ => k))
  (at level 61, right associativity) : prog_scope.
Open Scope prog_scope.

(** ** The [for] statement *)

Inductive loop_ctrl : Type :=
| Continue
| Break.

(** [for (i = i0; i < n; i++) body], where [body] may update the loop
    variables [st] and may [break].  Besides the final loop variables the
    combinator reports how many times the body ran. *)
Equations? for_loop {PS St} (n : Z) (body : Z -> St -> M PS (St * loop_ctrl))
    (i : Z) (st : St) (iters : nat) : M PS (St * nat)
    by wf (Z.to_nat (n - i)) lt :=
  for_loop n body i st iters with Z_lt_dec i n => {
    | left _ => fun w =>
        match body i st w with
        | (Normal (st', Continue), w') =>
            for_loop n body (i + 1) st' (S iters) w'
        | (Normal (st', Break), w') => (Normal (st', S iters), w')
        | (Returned c, w') => (Returned c, w')
        end
    | right _ => pure (st, iters) }.
Proof. lia. Qed.


(** ** Running a program *)

(** [main] starts with an empty trace.  Should control reach the end of
    [main] without a [return], C gives status 0. *)
Definition start {PS} (s0 : PS) : World PS := Build_World s0 [].

Definition exit_code {PS A} (r : outcome A * World PS) : int :=
  match fst r with
  | Returned c => c
  | Normal _ => 0
  end.

Definition events {PS A} (r : outcome A * World PS) : list event :=
  trace (snd r).

(** ** Library calls as statements *)

Section Calls.
Context {PS Sha : Type} (P : Provider PS Sha).

Definition call_SetSeed_Cb (cb : wc_RngSeed_Cb) : M PS int :=
  fun w =>
    let (r, s) := wc_SetSeed_Cb P cb (provider_state w) in
    (Normal r, Build_World s (trace w ++ [Ev_SetSeed_Cb cb r])).

Definition call_RunAllCast_fips : M PS int :=
  fun w =>
    let (r, s) := wc_RunAllCast_fips P (provider_state w) in
    (Normal r, Build_World s (trace w ++ [Ev_RunAllCast_fips r])).

Definition call_InitSha256 : M PS (int * Sha) :=
  fun w =>
    let (r, s) := wc_InitSha256 P (provider_state w) in
    (Normal r, Build_World s (trace w ++ [Ev_InitSha256 (fst r)])).

(** [data] is the array the pointer argument points into; the library
    is handed its first [len] bytes. *)
Definition call_Sha256Update (sha : Sha) (data : list byte) (len : Z)
  : M PS (int * Sha) :=
  fun w =>
    let input := firstn (Z.to_nat len) data in
    let (r, s) := wc_Sha256Update P sha input len (provider_state w) in
    (Normal r, Build_World s (trace w ++ [Ev_Sha256Update input len (fst r)])).

Definition call_Sha256Final (sha : Sha) : M PS (int * Sha * list byte) :=
  fun w =>
    let (r, s) := wc_Sha256Final P sha (provider_state w) in
    (Normal r,
     Build_World s (trace w ++ [Ev_Sha256Final (fst (fst r)) (snd r)])).
End Calls.

(** Reading [a[i]] from a byte array.  The programs only read inside
    their 32-byte buffers; the default is never met on a full buffer. *)
Definition index (a : list byte) (i : Z) : byte :=
  nth (Z.to_nat i) a Byte.x00.

(** A string literal denotes an array that holds its characters and a
    terminating zero byte. *)
Definition string_literal (s : string) : list byte :=
  (list_byte_of_string s ++ [Byte.x00])%list.

(** ** Observing a trace *)

Definition is_provider_call (e : event) : bool :=
  match e with
  | Ev_printf _ _ => false
  | _ => true
  end.

Definition is_cast_call (e : event) : bool :=
  match e with
  | Ev_RunAllCast_fips _ => true
  | _ => false
  end.

Definition is_digest_call (e : event) : bool :=
  match e with
  | Ev_InitSha256 _ | Ev_Sha256Update _ _ _ | Ev_Sha256Final _ _ => true
  | _ => false
  end.

(** What a library call handed back to the program. *)
Inductive response : Type :=
| Status (ret : int)
| StatusDigest (ret : int) (hash : list byte).

Definition response_of (e : event) : option response :=
  match e with
  | Ev_printf _ _ => None
  | Ev_SetSeed_Cb _ r => Some (Status r)
  | Ev_RunAllCast_fips r => Some (Status r)
  | Ev_InitSha256 r => Some (Status r)
  | Ev_Sha256Update _ _ r => Some (Status r)
  | Ev_Sha256Final r h => Some (StatusDigest r h)
  end.

Fixpoint responses (tr : list event) : list response :=
  match tr with
  | [] => []
  | e :: tr' =>
      match response_of e with
      | Some r => r :: responses tr'
      | None => responses tr'
      end
  end.

(** The contents of [hash] once [wc_Sha256Final] has been called. *)
Fixpoint computed_digest (tr : list event) : option (list byte) :=
  match tr with
  | [] => None
  | Ev_Sha256Final _ h :: _ => Some h
  | _ :: tr' => computed_digest tr'
  end.

(** Scans a trace and tells whether every self-test call comes after a
    registration of a seed callback. *)
Fixpoint cast_after_seed (registered : bool) (tr : list event) : bool :=
  match tr with
  | [] => true
  | Ev_SetSeed_Cb _ _ :: tr' => cast_after_seed true tr'
  | Ev_RunAllCast_fips _ :: tr' => registered && cast_after_seed registered tr'
  | _ :: tr' => cast_after_seed registered tr'
  end.

(** A run is rejected with a diagnostic block when the block is the last
    thing in the trace and the status is 1. *)
Definition fails_with {PS A} (r : outcome A * World PS) (report : list event)
  : Prop :=
  exit_code r = 1 /\ exists pre, events r = pre ++ report.

(** The conversion [%02x] applied to a byte value. *)
Definition hex_digit (n : Z) : ascii :=
  match n with
  | 0 => "0" | 1 => "1" | 2 => "2" | 3 => "3" | 4 => "4" | 5 => "5"
  | 6 => "6" | 7 => "7" | 8 => "8" | 9 => "9" | 10 => "a" | 11 => "b"
  | 12 => "c" | 13 => "d" | 14 => "e" | _ => "f"
  end%char.

Definition fmt_02x (v : int) : string :=
  String (hex_digit (v / 16)) (String (hex_digit (v mod 16)) EmptyString).

Definition hex_of_bytes (bs : list byte) : string :=
  String.concat "" (map (fun b => fmt_02x (byte_to_int b)) bs).


(** ** [fips-startup-check.c] *)

Module FipsStartupCheck.

Definition testData : list byte := string_literal "abc".

Definition expected : list byte :=
  [ Byte.xba; Byte.x78; Byte.x16; Byte.xbf; Byte.x8f; Byte.x01; Byte.xcf; Byte.xea;
    Byte.x41; Byte.x41; Byte.x40; Byte.xde; Byte.x5d; Byte.xae; Byte.x22; Byte.x23;
    Byte.xb0; Byte.x03; Byte.x61; Byte.xa3; Byte.x96; Byte.x17; Byte.x7a; Byte.x9c;
    Byte.xb4; Byte.x10; Byte.xff; Byte.x61; Byte.xf2; Byte.x00; Byte.x15; Byte.xad ].

Section Program.
Context {PS Sha : Type} (P : Provider PS Sha).

(** Lines 93-99: [match] is set to 1, then cleared at the first
    index where the two arrays differ. *)
Definition compare_loop (hash : list byte) : M PS (int * nat) :=
  for_loop WC_SHA256_DIGEST_SIZE
    (fun i match_ =>
       if negb (Byte.eqb (index hash i) (index expected i))
       then pure (0, Break)
       else pure (match_, Continue))
    0 1 0%nat.

Definition main (cfg : BuildConfig) : M PS unit :=
  printf "========================================\n" [];;
  printf "FIPS Startup Validation\n" [];;
  printf "========================================\n\n" [];;
  (* Check 1 *)
  printf "[1/3] Checking FIPS compile-time configuration...\n" [];;
  (if HAVE_FIPS cfg then
     printf "      ✓ FIPS mode: ENABLED\n" [];;
     match HAVE_FIPS_VERSION cfg with
     | Some version =>
         printf "      ✓ FIPS version: %d\n" [version];;
         when (version <? 5)
           (printf "      ✗ ERROR: FIPS version must be 5 or higher\n" [];;
            Return 1)
     | None =>
         printf "      ⚠ FIPS version macro not available\n" []
     end
   else
     printf "      ✗ ERROR: FIPS mode is DISABLED\n" [];;
     printf "      This binary was not compiled with FIPS support\n" [];;
     Return 1);;
  (* Check 2 *)
  printf "\n[2/3] Running FIPS Known Answer Tests (CAST)...\n" [];;
  call_SetSeed_Cb P wc_GenerateSeed;;
  ret <- call_RunAllCast_fips P;;
  when (negb (ret =? 0))
    (printf "      ✗ FIPS CAST FAILED (error code: %d)\n" [ret];;
     printf "      FIPS cryptographic module validation failed\n" [];;
     Return 1);;
  printf "      ✓ FIPS CAST: PASSED\n" [];;
  (* Check 3 *)
  printf "\n[3/3] Validating SHA-256 cryptographic operation...\n" [];;
  r <- call_InitSha256 P;;
  let (ret, sha) := r in
  when (negb (ret =? 0))
    (printf "      ✗ SHA-256 initialization failed (error code: %d)\n" [ret];;
     Return 1);;
  r <- call_Sha256Update P sha testData 3;;
  let (ret, sha) := r in
  when (negb (ret =? 0))
    (printf "      ✗ SHA-256 update failed (error code: %d)\n" [ret];;
     Return 1);;
  r <- call_Sha256Final P sha;;
  let '(ret, sha, hash) := r in
  when (negb (ret =? 0))
    (printf "      ✗ SHA-256 finalization failed (error code: %d)\n" [ret];;
     Return 1);;
  r <- compare_loop hash;;
  let (match_, _) := r in
  when (match_ =? 0)
    (printf "      ✗ SHA-256 test vector mismatch\n" [];;
     printf "      Cryptographic operation produced incorrect result\n" [];;
     Return 1);;
  printf "      ✓ SHA-256 test vector: PASSED\n" [];;
  printf "\n========================================\n" [];;
  printf "✓ FIPS VALIDATION PASSED\n" [];;
  printf "========================================\n" [];;
  printf "FIPS 140-3 compliant cryptography verified\n" [];;
  printf "Container startup authorized\n\n" [];;
  Return 0.

End Program.

(** *** The report, block by block *)

Definition Start : list event :=
  [ Ev_printf "========================================\n" [];
    Ev_printf "FIPS Startup Validation\n" [];
    Ev_printf "========================================\n\n" [];
    Ev_printf "[1/3] Checking FIPS compile-time configuration...\n" [] ].

Definition FipsDisabled : list event :=
  [ Ev_printf "      ✗ ERROR: FIPS mode is DISABLED\n" [];
    Ev_printf "      This binary was not compiled with FIPS support\n" [] ].

Definition fips_enabled : event :=
  Ev_printf "      ✓ FIPS mode: ENABLED\n" [].

Definition fips_version (version : int) : event :=
  Ev_printf "      ✓ FIPS version: %d\n" [version].

Definition FipsVersionTooLow : list event :=
  [ Ev_printf "      ✗ ERROR: FIPS version must be 5 or higher\n" [] ].

Definition version_warning : event :=
  Ev_printf "      ⚠ FIPS version macro not available\n" [].

Definition cast_intro : event :=
  Ev_printf "\n[2/3] Running FIPS Known Answer Tests (CAST)...\n" [].

Definition CastFailure (code : int) : list event :=
  [ Ev_printf "      ✗ FIPS CAST FAILED (error code: %d)\n" [code];
    Ev_printf "      FIPS cryptographic module validation failed\n" [] ].

Definition cast_passed : event :=
  Ev_printf "      ✓ FIPS CAST: PASSED\n" [].

Definition digest_intro : event :=
  Ev_printf "\n[3/3] Validating SHA-256 cryptographic operation...\n" [].

Definition DigestInitFailure (code : int) : list event :=
  [ Ev_printf "      ✗ SHA-256 initialization failed (error code: %d)\n" [code] ].

Definition DigestUpdateFailure (code : int) : list event :=
  [ Ev_printf "      ✗ SHA-256 update failed (error code: %d)\n" [code] ].

Definition DigestFinalizeFailure (code : int) : list event :=
  [ Ev_printf "      ✗ SHA-256 finalization failed (error code: %d)\n" [code] ].

Definition DigestMismatch : list event :=
  [ Ev_printf "      ✗ SHA-256 test vector mismatch\n" [];
    Ev_printf "      Cryptographic operation produced incorrect result\n" [] ].

Definition digest_passed : event :=
  Ev_printf "      ✓ SHA-256 test vector: PASSED\n" [].

Definition Authorized : list event :=
  [ digest_passed;
    Ev_printf "\n========================================\n" [];
    Ev_printf "✓ FIPS VALIDATION PASSED\n" [];
    Ev_printf "========================================\n" [];
    Ev_printf "FIPS 140-3 compliant cryptography verified\n" [];
    Ev_printf "Container startup authorized\n\n" [] ].

(** *** The states of a run *)

(** Check 1 lets the run continue. *)
Definition compile_time_ok (cfg : BuildConfig) : Prop :=
  HAVE_FIPS cfg = true /\
  match HAVE_FIPS_VERSION cfg with
  | Some version => 5 <= version
  | None => True
  end.

Definition CompileTimeChecked (cfg : BuildConfig) : list event :=
  Start ++
  [ fips_enabled;
    match HAVE_FIPS_VERSION cfg with
    | Some version => fips_version version
    | None => version_warning
    end ].

Definition CastChecked (cfg : BuildConfig) (seed : int) : list event :=
  CompileTimeChecked cfg ++
  [ cast_intro; Ev_SetSeed_Cb wc_GenerateSeed seed; Ev_RunAllCast_fips 0;
    cast_passed; digest_intro ].

Definition DigestChecked (cfg : BuildConfig) (seed : int) (hash : list byte)
  : list event :=
  CastChecked cfg seed ++
  [ Ev_InitSha256 0;
    Ev_Sha256Update (list_byte_of_string "abc") 3 0;
    Ev_Sha256Final 0 hash ].

Definition digests_agree (hash : list byte) : Prop :=
  forall i, 0 <= i < WC_SHA256_DIGEST_SIZE -> index hash i = index expected i.

Definition digests_differ (hash : list byte) : Prop :=
  exists i, 0 <= i < WC_SHA256_DIGEST_SIZE /\ index hash i <> index expected i.

(** Every way through [main]: the exit status and the whole trace. *)
Inductive path (cfg : BuildConfig) : int -> list event -> Prop :=
| Rejected_FipsDisabled :
    HAVE_FIPS cfg = false ->
    path cfg 1 (Start ++ FipsDisabled)
| Rejected_FipsVersionTooLow version :
    HAVE_FIPS cfg = true ->
    HAVE_FIPS_VERSION cfg = Some version ->
    version < 5 ->
    path cfg 1 (CompileTimeChecked cfg ++ FipsVersionTooLow)
| Rejected_Cast seed code :
    compile_time_ok cfg ->
    code <> 0 ->
    path cfg 1
      (CompileTimeChecked cfg ++
       [ cast_intro; Ev_SetSeed_Cb wc_GenerateSeed seed;
         Ev_RunAllCast_fips code ] ++ CastFailure code)
| Rejected_DigestInit seed code :
    compile_time_ok cfg ->
    code <> 0 ->
    path cfg 1
      (CastChecked cfg seed ++ [ Ev_InitSha256 code ] ++ DigestInitFailure code)
| Rejected_DigestUpdate seed code :
    compile_time_ok cfg ->
    code <> 0 ->
    path cfg 1
      (CastChecked cfg seed ++
       [ Ev_InitSha256 0;
         Ev_Sha256Update (list_byte_of_string "abc") 3 code ] ++
       DigestUpdateFailure code)
| Rejected_DigestFinalize seed code hash :
    compile_time_ok cfg ->
    code <> 0 ->
    path cfg 1
      (CastChecked cfg seed ++
       [ Ev_InitSha256 0;
         Ev_Sha256Update (list_byte_of_string "abc") 3 0;
         Ev_Sha256Final code hash ] ++
       DigestFinalizeFailure code)
| Rejected_DigestMismatch seed hash :
    compile_time_ok cfg ->
    digests_differ hash ->
    path cfg 1 (DigestChecked cfg seed hash ++ DigestMismatch)
| Run_Authorized seed hash :
    compile_time_ok cfg ->
    digests_agree hash ->
    path cfg 0 (DigestChecked cfg seed hash ++ Authorized).

(** The comparison of [hash] with [expected] prints nothing by itself;
    what shows that it ran is the line that reports its verdict. *)
Definition comparison_reported (tr : list event) : Prop :=
  exists e, In e (digest_passed :: DigestMismatch) /\ In e tr.

End FipsStartupCheck.

(** ** [test-fips.c] *)

Module TestFips.

Definition data : list byte := string_literal "abc".

Section Program.
Context {PS Sha : Type} (P : Provider PS Sha).

(** Lines 58-60: one [printf] per byte of [hash]. *)
Definition print_loop (hash : list byte) : M PS (unit * nat) :=
  for_loop WC_SHA256_DIGEST_SIZE
    (fun i st =>
       printf "%02x" [byte_to_int (index hash i)];;
       pure (st, Continue))
    0 tt 0%nat.

Definition main (cfg : BuildConfig) : M PS unit :=
  printf "Testing wolfSSL FIPS installation...\n" [];;
  (if HAVE_FIPS cfg then
     printf "FIPS mode: ENABLED\n" [];;
     match HAVE_FIPS_VERSION cfg with
     | Some version => printf "FIPS version: %d\n" [version]
     | None =>
         printf "FIPS version: Enabled (version macro not available)\n" []
     end
   else
     printf "FIPS mode: DISABLED (WARNING!)\n" []);;
  printf "\nRunning FIPS CAST (Known Answer Tests)...\n" [];;
  call_SetSeed_Cb P wc_GenerateSeed;;
  ret <- call_RunAllCast_fips P;;
  when (negb (ret =? 0))
    (printf "FIPS CAST failed: %d\n" [ret];;
     Return 1);;
  printf "FIPS CAST: PASSED\n" [];;
  printf "\nRunning SHA256 test...\n" [];;
  r <- call_InitSha256 P;;
  let (ret, sha) := r in
  when (negb (ret =? 0))
    (printf "SHA256 Init failed: %d\n" [ret];;
     Return 1);;
  r <- call_Sha256Update P sha data 3;;
  let (ret, sha) := r in
  when (negb (ret =? 0))
    (printf "SHA256 Update failed: %d\n" [ret];;
     Return 1);;
  r <- call_Sha256Final P sha;;
  let '(ret, sha, hash) := r in
  when (negb (ret =? 0))
    (printf "SHA256 Final failed: %d\n" [ret];;
     Return 1);;
  printf "SHA256('abc') = " [];;
  print_loop hash;;
  printf "\n" [];;
  printf "Expected:       ba7816bf8f01cfea414140de5dae2223b00361a396177a9cb410ff61f20015ad\n" [];;
  printf "\nwolfSSL FIPS test: ALL PASSED ✓\n" [];;
  Return 0.

End Program.

(** *** The report, block by block *)

Definition fips_disabled_warning : event :=
  Ev_printf "FIPS mode: DISABLED (WARNING!)\n" [].

Definition fips_enabled : event :=
  Ev_printf "FIPS mode: ENABLED\n" [].

Definition fips_version (version : int) : event :=
  Ev_printf "FIPS version: %d\n" [version].

Definition version_warning : event :=
  Ev_printf "FIPS version: Enabled (version macro not available)\n" [].

Definition cast_intro : event :=
  Ev_printf "\nRunning FIPS CAST (Known Answer Tests)...\n" [].

Definition CastFailure (code : int) : list event :=
  [ Ev_printf "FIPS CAST failed: %d\n" [code] ].

Definition cast_passed : event :=
  Ev_printf "FIPS CAST: PASSED\n" [].

Definition digest_intro : event :=
  Ev_printf "\nRunning SHA256 test...\n" [].

Definition DigestInitFailure (code : int) : list event :=
  [ Ev_printf "SHA256 Init failed: %d\n" [code] ].

Definition DigestUpdateFailure (code : int) : list event :=
  [ Ev_printf "SHA256 Update failed: %d\n" [code] ].

Definition DigestFinalizeFailure (code : int) : list event :=
  [ Ev_printf "SHA256 Final failed: %d\n" [code] ].

(** The 32 events of the printing loop. *)
Definition hex_dump (hash : list byte) : list event :=
  map (fun i => Ev_printf "%02x" [byte_to_int (index hash (Z.of_nat i))])
      (seq 0 (Z.to_nat WC_SHA256_DIGEST_SIZE)).

Definition AllPassed (hash : list byte) : list event :=
  [ Ev_printf "SHA256('abc') = " [] ] ++ hex_dump hash ++
  [ Ev_printf "\n" [];
    Ev_printf "Expected:       ba7816bf8f01cfea414140de5dae2223b00361a396177a9cb410ff61f20015ad\n" [];
    Ev_printf "\nwolfSSL FIPS test: ALL PASSED ✓\n" [] ].

(** *** The states of a run *)

Definition ConfigReported (cfg : BuildConfig) : list event :=
  Ev_printf "Testing wolfSSL FIPS installation...\n" [] ::
  (if HAVE_FIPS cfg then
     [ fips_enabled;
       match HAVE_FIPS_VERSION cfg with
       | Some version => fips_version version
       | None => version_warning
       end ]
   else [ fips_disabled_warning ]).

Definition CastChecked (cfg : BuildConfig) (seed : int) : list event :=
  ConfigReported cfg ++
  [ cast_intro; Ev_SetSeed_Cb wc_GenerateSeed seed; Ev_RunAllCast_fips 0;
    cast_passed; digest_intro ].

(** Every way through [main]: the exit status and the whole trace. *)
Inductive path (cfg : BuildConfig) : int -> list event -> Prop :=
| Rejected_Cast seed code :
    code <> 0 ->
    path cfg 1
      (ConfigReported cfg ++
       [ cast_intro; Ev_SetSeed_Cb wc_GenerateSeed seed;
         Ev_RunAllCast_fips code ] ++ CastFailure code)
| Rejected_DigestInit seed code :
    code <> 0 ->
    path cfg 1
      (CastChecked cfg seed ++ [ Ev_InitSha256 code ] ++ DigestInitFailure code)
| Rejected_DigestUpdate seed code :
    code <> 0 ->
    path cfg 1
      (CastChecked cfg seed ++
       [ Ev_InitSha256 0;
         Ev_Sha256Update (list_byte_of_string "abc") 3 code ] ++
       DigestUpdateFailure code)
| Rejected_DigestFinalize seed code hash :
    code <> 0 ->
    path cfg 1
      (CastChecked cfg seed ++
       [ Ev_InitSha256 0;
         Ev_Sha256Update (list_byte_of_string "abc") 3 0;
         Ev_Sha256Final code hash ] ++
       DigestFinalizeFailure code)
| Run_AllPassed seed hash :
    path cfg 0
      (CastChecked cfg seed ++
       [ Ev_InitSha256 0;
         Ev_Sha256Update (list_byte_of_string "abc") 3 0;
         Ev_Sha256Final 0 hash ] ++
       AllPassed hash).

(** Some line of the digest print-out is in the trace. *)
Definition digest_printed (tr : list event) : Prop :=
  exists e hash, In e (AllPassed hash) /\ In e tr.

End TestFips.

(** ** What the checks decide *)

(** What the provider hands back when the five entry points are called
    on it in the order of the sources, starting from state [s0], with
    "abc" and length 3 as digest input.  Every call is made, whatever the
    calls before it returned: this is the provider's behaviour, not a
    run of either program. *)
Record Answers : Type := {
  seed_status : int;
  cast_status : int;
  init_status : int;
  update_status : int;
  final_status : int;
  digest : list byte
}.

Definition provider_answers {PS Sha} (P : Provider PS Sha) (s0 : PS) : Answers :=
  let (seed, s1) := wc_SetSeed_Cb P wc_GenerateSeed s0 in
  let (cast, s2) := wc_RunAllCast_fips P s1 in
  let (r3, s3) := wc_InitSha256 P s2 in
  let (r4, s4) :=
    wc_Sha256Update P (snd r3) (list_byte_of_string "abc") 3 s3 in
  let (r5, s5) := wc_Sha256Final P (snd r4) s4 in
  {| seed_status := seed;
     cast_status := cast;
     init_status := fst r3;
     update_status := fst r4;
     final_status := fst (fst r5);
     digest := snd r5 |}.

(** The 32 cells of the digest buffer hold the expected constant. *)
Definition digest_matches (hash : list byte) : Prop :=
  firstn (Z.to_nat WC_SHA256_DIGEST_SIZE) hash = FipsStartupCheck.expected.

(** The self-test and the three digest calls answer 0. *)
Definition library_calls_succeed (a : Answers) : Prop :=
  cast_status a = 0 /\ init_status a = 0 /\
  update_status a = 0 /\ final_status a = 0.

(** All three checks pass: the build is accepted (check 1), the
    self-test answers 0 (check 2), the three digest calls answer 0 and
    the digest is the expected one (check 3). *)
Definition three_checks_pass (cfg : BuildConfig) (a : Answers) : Prop :=
  FipsStartupCheck.compile_time_ok cfg /\
  library_calls_succeed a /\
  digest_matches (digest a).

(** ** The digest the provider is meant to compute *)

(** Modelled from the spec: the digest primitive belongs to wolfCrypt and
    is not part of the sources.  The spec names it SHA-256; this is that
    function on byte strings, as FIPS 180-4 defines it, with 32-bit
    words kept in [Z] and reduced modulo [2 ^ 32] after every sum. *)
Module SHA256.

Definition wrap (x : Z) : Z := x mod 2 ^ 32.

Definition add (x y : Z) : Z := wrap (x + y).

Definition rotr (n x : Z) : Z :=
  Z.lor (Z.shiftr x n) (wrap (Z.shiftl x (32 - n))).

Definition Ch (x y z : Z) : Z :=
  Z.lxor (Z.land x y) (Z.land (Z.lxor x (2 ^ 32 - 1)) z).

Definition Maj (x y z : Z) : Z :=
  Z.lxor (Z.lxor (Z.land x y) (Z.land x z)) (Z.land y z).

Definition Sum0 (x : Z) : Z :=
  Z.lxor (Z.lxor (rotr 2 x) (rotr 13 x)) (rotr 22 x).

Definition Sum1 (x : Z) : Z :=
  Z.lxor (Z.lxor (rotr 6 x) (rotr 11 x)) (rotr 25 x).

Definition sigma0 (x : Z) : Z :=
  Z.lxor (Z.lxor (rotr 7 x) (rotr 18 x)) (Z.shiftr x 3).

Definition sigma1 (x : Z) : Z :=
  Z.lxor (Z.lxor (rotr 17 x) (rotr 19 x)) (Z.shiftr x 10).

(** The constants are the leading 32 bits of the fractional parts of
    the square roots (initial hash value) and of the cube roots (round
    constants) of the first primes; they are computed, not tabulated. *)
Definition is_prime (n : Z) : bool :=
  forallb (fun d => negb (n mod Z.of_nat d =? 0)) (seq 2 (Z.to_nat n - 2)).

Definition primes : list Z :=
  firstn 64 (filter is_prime (map Z.of_nat (seq 2 400))).

Fixpoint cube_root_bits (k : nat) (n r : Z) : Z :=
  match k with
  | O => r
  | S k' =>
      let r' := r + 2 ^ Z.of_nat k' in
      cube_root_bits k' n (if r' * r' * r' <=? n then r' else r)
  end.

Definition cube_root (n : Z) : Z := cube_root_bits 40 n 0.

Definition initial_hash : list Z :=
  map (fun p => wrap (Z.sqrt (p * 2 ^ 64))) (firstn 8 primes).

Definition K : list Z :=
  map (fun p => wrap (cube_root (p * 2 ^ 96))) primes.

Definition byte_of_Z (x : Z) : byte :=
  match Byte.of_N (Z.to_N (x mod 256)) with
  | Some b => b
  | None => Byte.x00
  end.

Definition Z_of_byte (b : byte) : Z := Z.of_N (Byte.to_N b).

Definition big_endian (width : nat) (x : Z) : list byte :=
  map (fun i => byte_of_Z (Z.shiftr x (8 * Z.of_nat i))) (rev (seq 0 width)).

Definition pad (msg : list byte) : list byte :=
  let len := Z.of_nat (List.length msg) in
  let zeros := Z.to_nat ((55 - len) mod 64) in
  (msg ++ [Byte.x80] ++ repeat Byte.x00 zeros ++ big_endian 8 (8 * len))%list.

Fixpoint words (n : nat) (bs : list byte) : list Z :=
  match n, bs with
  | S n', b0 :: b1 :: b2 :: b3 :: bs' =>
      (Z_of_byte b0 * 2 ^ 24 + Z_of_byte b1 * 2 ^ 16 +
       Z_of_byte b2 * 2 ^ 8 + Z_of_byte b3) :: words n' bs'
  | _, _ => []
  end.

Definition word (W : list Z) (t : nat) : Z := nth t W 0.

Fixpoint schedule (n : nat) (W : list Z) : list Z :=
  match n with
  | O => W
  | S n' =>
      let t := List.length W in
      schedule n'
        (W ++ [add (add (sigma1 (word W (t - 2))) (word W (t - 7)))
                   (add (sigma0 (word W (t - 15))) (word W (t - 16)))])%list
  end.

Definition round (v : list Z) (kw : Z * Z) : list Z :=
  match v with
  | [a; b; c; d; e; f; g; h] =>
      let T1 := add (add (add h (Sum1 e)) (Ch e f g)) (add (fst kw) (snd kw)) in
      let T2 := add (Sum0 a) (Maj a b c) in
      [add T1 T2; a; b; c; add d T1; e; f; g]
  | _ => v
  end.

Definition compress (H : list Z) (block : list byte) : list Z :=
  let W := schedule 48 (words 16 block) in
  map (fun p => add (fst p) (snd p))
      (combine H (fold_left round (combine K W) H)).

Fixpoint blocks (n : nat) (H : list Z) (bs : list byte) : list Z :=
  match n with
  | O => H
  | S n' => blocks n' (compress H (firstn 64 bs)) (skipn 64 bs)
  end.

Definition sha256 (msg : list byte) : list byte :=
  let padded := pad msg in
  flat_map (big_endian 4)
    (blocks (List.length padded / 64) initial_hash padded).

End SHA256.

(** ** Concrete providers and builds *)

(** A provider without state that answers every call the same way. *)
Definition const_provider (seed cast init update final : int) (out : list byte)
  : Provider unit unit :=
  {| wc_SetSeed_Cb := fun _ s => (seed, s);
     wc_RunAllCast_fips := fun s => (cast, s);
     wc_InitSha256 := fun s => ((init, tt), s);
     wc_Sha256Update := fun _ _ _ s => ((update, tt), s);
     wc_Sha256Final := fun _ s => ((final, tt, out), s) |}.

(** A provider that remembers the registered seed callback, passes its
    self-test and computes SHA-256 of the bytes it was fed. *)
Definition sha256_provider : Provider (option wc_RngSeed_Cb) (list byte) :=
  {| wc_SetSeed_Cb := fun cb _ => (0, Some cb);
     wc_RunAllCast_fips := fun s => (0, s);
     wc_InitSha256 := fun s => ((0, []), s);
     wc_Sha256Update := fun sha d l s =>
       ((0, (sha ++ firstn (Z.to_nat l) d)%list), s);
     wc_Sha256Final := fun sha s => ((0, [], SHA256.sha256 sha), s) |}.

Definition zero_digest : list byte :=
  repeat Byte.x00 (Z.to_nat WC_SHA256_DIGEST_SIZE).

(** The answers used below: all calls succeed and the digest is the
    expected one; the same with a digest of zeros; the self-test fails
    with status 7; a digest call fails with status 9. *)
Definition passing_provider : Provider unit unit :=
  const_provider 0 0 0 0 0 FipsStartupCheck.expected.

Definition zero_digest_provider : Provider unit unit :=
  const_provider 0 0 0 0 0 zero_digest.

Definition cast_failing_provider : Provider unit unit :=
  const_provider 0 7 0 0 0 FipsStartupCheck.expected.

Definition init_failing_provider : Provider unit unit :=
  const_provider 0 0 9 0 0 FipsStartupCheck.expected.

Definition final_failing_provider : Provider unit unit :=
  const_provider 0 0 0 0 9 zero_digest.

Definition fips_v5 : BuildConfig :=
  {| HAVE_FIPS := true; HAVE_FIPS_VERSION := Some 5 |}.

Definition fips_v6 : BuildConfig :=
  {| HAVE_FIPS := true; HAVE_FIPS_VERSION := Some 6 |}.

Definition fips_v4 : BuildConfig :=
  {| HAVE_FIPS := true; HAVE_FIPS_VERSION := Some 4 |}.

Definition fips_no_version : BuildConfig :=
  {| HAVE_FIPS := true; HAVE_FIPS_VERSION := None |}.

Definition no_fips : BuildConfig :=
  {| HAVE_FIPS := false; HAVE_FIPS_VERSION := None |}.

(** ** Vocabulary for further properties of the two programs *)

(** The provider [P] with the status of [wc_SetSeed_Cb] replaced by [k];
    what the call does to the library is unchanged. *)
Definition with_seed_status {PS Sha} (k : int) (P : Provider PS Sha)
  : Provider PS Sha :=
  {| wc_SetSeed_Cb := fun cb s => (k, snd (wc_SetSeed_Cb P cb s));
     wc_RunAllCast_fips := wc_RunAllCast_fips P;
     wc_InitSha256 := wc_InitSha256 P;
     wc_Sha256Update := wc_Sha256Update P;
     wc_Sha256Final := wc_Sha256Final P |}.

Definition is_seed_call (e : event) : bool :=
  match e with
  | Ev_SetSeed_Cb _ _ => true
  | _ => false
  end.

Definition not_seed_call (e : event) : bool := negb (is_seed_call e).

Definition is_init_call (e : event) : bool :=
  match e with
  | Ev_InitSha256 _ => true
  | _ => false
  end.

Definition is_hex_line (e : event) : bool :=
  match e with
  | Ev_printf fmt _ => String.eqb fmt "%02x"
  | _ => false
  end.

(** The part of a trace in front of the first event that satisfies [p]. *)
Fixpoint before (p : event -> bool) (tr : list event) : list event :=
  match tr with
  | [] => []
  | e :: tr' => if p e then [] else e :: before p tr'
  end.

(** The library calls a run may consist of: the five entry points in
    the order of the source, each once, cut after the first call whose
    status is not 0.  The status of [wc_SetSeed_Cb] plays no part. *)
Inductive call_sequence : list event -> Prop :=
| calls_none : call_sequence []
| calls_to_cast seed code :
    code <> 0 ->
    call_sequence
      [ Ev_SetSeed_Cb wc_GenerateSeed seed; Ev_RunAllCast_fips code ]
| calls_to_init seed code :
    code <> 0 ->
    call_sequence
      [ Ev_SetSeed_Cb wc_GenerateSeed seed; Ev_RunAllCast_fips 0;
        Ev_InitSha256 code ]
| calls_to_update seed code :
    code <> 0 ->
    call_sequence
      [ Ev_SetSeed_Cb wc_GenerateSeed seed; Ev_RunAllCast_fips 0;
        Ev_InitSha256 0;
        Ev_Sha256Update (list_byte_of_string "abc") 3 code ]
| calls_to_final seed code hash :
    call_sequence
      [ Ev_SetSeed_Cb wc_GenerateSeed seed; Ev_RunAllCast_fips 0;
        Ev_InitSha256 0;
        Ev_Sha256Update (list_byte_of_string "abc") 3 0;
        Ev_Sha256Final code hash ].

(** The ways [fips-startup-check] ends a rejected run: for a failed
    call, the call and its diagnostic; for the gates of check 1 and for
    the comparison, the diagnostic. *)
Inductive startup_check_rejection : list event -> Prop :=
| rejects_disabled :
    startup_check_rejection FipsStartupCheck.FipsDisabled
| rejects_version :
    startup_check_rejection FipsStartupCheck.FipsVersionTooLow
| rejects_cast code :
    code <> 0 ->
    startup_check_rejection
      (Ev_RunAllCast_fips code :: FipsStartupCheck.CastFailure code)
| rejects_init code :
    code <> 0 ->
    startup_check_rejection
      (Ev_InitSha256 code :: FipsStartupCheck.DigestInitFailure code)
| rejects_update d l code :
    code <> 0 ->
    startup_check_rejection
      (Ev_Sha256Update d l code :: FipsStartupCheck.DigestUpdateFailure code)
| rejects_final code hash :
    code <> 0 ->
    startup_check_rejection
      (Ev_Sha256Final code hash :: FipsStartupCheck.DigestFinalizeFailure code)
| rejects_mismatch :
    startup_check_rejection FipsStartupCheck.DigestMismatch.

(** The ways [test-fips] ends a rejected run. *)
Inductive test_fips_rejection : list event -> Prop :=
| test_rejects_cast code :
    code <> 0 ->
    test_fips_rejection (Ev_RunAllCast_fips code :: TestFips.CastFailure code)
| test_rejects_init code :
    code <> 0 ->
    test_fips_rejection (Ev_InitSha256 code :: TestFips.DigestInitFailure code)
| test_rejects_update d l code :
    code <> 0 ->
    test_fips_rejection
      (Ev_Sha256Update d l code :: TestFips.DigestUpdateFailure code)
| test_rejects_final code hash :
    code <> 0 ->
    test_fips_rejection
      (Ev_Sha256Final code hash :: TestFips.DigestFinalizeFailure code).

(** The closing lines of an accepted run. *)
Definition validation_passed : event :=
  Ev_printf "✓ FIPS VALIDATION PASSED\n" [].

Definition test_all_passed : event :=
  Ev_printf "\nwolfSSL FIPS test: ALL PASSED ✓\n" [].

(** The number of conversion specifications of a [printf] format:
    every [%] that is not part of [%%] starts one. *)
Fixpoint conversions (fmt : string) : nat :=
  match fmt with
  | EmptyString => 0%nat
  | String c rest =>
      if Ascii.eqb c "%" then
        match rest with
        | String c' rest' =>
            if Ascii.eqb c' "%" then conversions rest'
            else S (conversions rest')
        | EmptyString => 1%nat
        end
      else conversions rest
  end.

(** A [printf] is handed as many arguments as its format converts. *)
Definition printf_args_match (e : event) : Prop :=
  match e with
  | Ev_printf fmt args => List.length args = conversions fmt
  | _ => True
  end.

(** What the library sees of a run: the call events and its own state. *)
Definition session_of {PS} (w : World PS) : list event * PS :=
  (filter is_provider_call (trace w), provider_state w).

(** The five entry points called in source order on the library alone,
    with "abc" and length 3 as digest input, stopping after the first
    call (other than the seed registration) whose status is not 0. *)
Definition library_session {PS Sha} (P : Provider PS Sha) (s0 : PS)
  : list event * PS :=
  let (seed, s1) := wc_SetSeed_Cb P wc_GenerateSeed s0 in
  let (cast, s2) := wc_RunAllCast_fips P s1 in
  if negb (cast =? 0) then
    ([Ev_SetSeed_Cb wc_GenerateSeed seed; Ev_RunAllCast_fips cast], s2)
  else
    let (r3, s3) := wc_InitSha256 P s2 in
    if negb (fst r3 =? 0) then
      ([Ev_SetSeed_Cb wc_GenerateSeed seed; Ev_RunAllCast_fips 0;
        Ev_InitSha256 (fst r3)], s3)
    else
      let (r4, s4) :=
        wc_Sha256Update P (snd r3) (list_byte_of_string "abc") 3 s3 in
      if negb (fst r4 =? 0) then
        ([Ev_SetSeed_Cb wc_GenerateSeed seed; Ev_RunAllCast_fips 0;
          Ev_InitSha256 0;
          Ev_Sha256Update (list_byte_of_string "abc") 3 (fst r4)], s4)
      else
        let (r5, s5) := wc_Sha256Final P (snd r4) s4 in
        ([Ev_SetSeed_Cb wc_GenerateSeed seed; Ev_RunAllCast_fips 0;
          Ev_InitSha256 0;
          Ev_Sha256Update (list_byte_of_string "abc") 3 0;
          Ev_Sha256Final (fst (fst r5)) (snd r5)], s5).

(** * Properties *)

(** ** The [for] statement *)

Lemma for_loop_step {PS St} (n : Z) (body : Z -> St -> M PS (St * loop_ctrl))
    (i : Z) (st : St) (iters : nat) (w : World PS) :
  for_loop n body i st iters w =
  if i <? n then
    match body i st w with
    | (Normal (st', Continue), w') => for_loop n body (i + 1) st' (S iters) w'
    | (Normal (st', Break), w') => (Normal (st', S iters), w')
    | (Returned c, w') => (Returned c, w')
    end
  else (Normal (st, iters), w).
Proof.
  rewrite for_loop_equation_1.
  destruct (Z_lt_dec i n) as [H | H]; cbn.
  - apply Z.ltb_lt in H. rewrite H.
    destruct (body i st w) as [[[st' []] | c] w']; reflexivity.
  - apply Z.ltb_nlt in H. rewrite H. reflexivity.
Qed.

(** Invariant rule: [Inv] holds whenever the loop test is evaluated,
    [Post] holds of whatever the loop yields. *)
Lemma for_loop_rule {PS St} (n : Z) (body : Z -> St -> M PS (St * loop_ctrl))
    (Inv : Z -> St -> nat -> World PS -> Prop)
    (Post : outcome (St * nat) * World PS -> Prop) :
  (forall i st it w, Inv i st it w -> n <= i -> Post (Normal (st, it), w)) ->
  (forall i st it w, Inv i st it w -> i < n ->
     match body i st w with
     | (Normal (st', Continue), w') => Inv (i + 1) st' (S it) w'
     | (Normal (st', Break), w') => Post (Normal (st', S it), w')
     | (Returned c, w') => Post (Returned c, w')
     end) ->
  forall i st it w, Inv i st it w -> Post (for_loop n body i st it w).
Proof.
  intros Hexit Hbody i st it w.
  remember (Z.to_nat (n - i)) as k eqn:Hk.
  revert i st it w Hk.
  induction k as [k IH] using lt_wf_ind.
  intros i st it w Hk Hinv.
  rewrite for_loop_step.
  destruct (Z.ltb_spec i n) as [Hlt | Hge].
  - specialize (Hbody i st it w Hinv Hlt).
    destruct (body i st w) as [[[st' []] | c] w']; try exact Hbody.
    apply (IH (Z.to_nat (n - (i + 1)))); [lia | reflexivity | exact Hbody].
  - apply (Hexit i); assumption.
Qed.

(** ** The two loops *)

Lemma compare_loop_spec {PS} (hash : list byte) (w : World PS) :
  exists match_ it,
    FipsStartupCheck.compare_loop hash w = (Normal (match_, it), w) /\
    (it <= 32)%nat /\
    ((match_ = 1 /\ FipsStartupCheck.digests_agree hash) \/
     (match_ = 0 /\ FipsStartupCheck.digests_differ hash)).
Proof.
  unfold FipsStartupCheck.compare_loop.
  apply (for_loop_rule _ _
    (fun i m it w' =>
       w' = w /\ 0 <= i <= WC_SHA256_DIGEST_SIZE /\ it = Z.to_nat i /\ m = 1 /\
       forall j, 0 <= j < i ->
         index hash j = index FipsStartupCheck.expected j)).
  - intros i m it w' (-> & Hi & -> & -> & Hag) Hge.
    exists 1, (Z.to_nat i). split; [reflexivity |].
    split; [unfold WC_SHA256_DIGEST_SIZE in *; lia |].
    left. split; [reflexivity |].
    intros j Hj. apply Hag. lia.
  - intros i m it w' (-> & Hi & -> & -> & Hag) Hlt.
    destruct (Byte.eqb (index hash i) (index FipsStartupCheck.expected i)) eqn:E;
      cbn.
    + apply Byte.byte_dec_bl in E.
      repeat split; try lia.
      intros j Hj.
      destruct (Z.eq_dec j i) as [-> | Hne]; [exact E | apply Hag; lia].
    + apply Byte.eqb_false in E.
      exists 0, (S (Z.to_nat i)). split; [reflexivity |].
      split; [unfold WC_SHA256_DIGEST_SIZE in *; lia |].
      right. split; [reflexivity |].
      exists i. split; [lia | exact E].
  - repeat split; unfold WC_SHA256_DIGEST_SIZE; try lia.
Qed.

Lemma print_loop_spec {PS} (hash : list byte) (w : World PS) :
  TestFips.print_loop hash w =
  (Normal (tt, 32%nat),
   Build_World (provider_state w) (trace w ++ TestFips.hex_dump hash)).
Proof.
  unfold TestFips.print_loop, TestFips.hex_dump.
  set (line := fun i : nat =>
         Ev_printf "%02x" [byte_to_int (index hash (Z.of_nat i))]).
  apply (for_loop_rule _ _
    (fun i (_ : unit) it w' =>
       0 <= i <= WC_SHA256_DIGEST_SIZE /\ it = Z.to_nat i /\
       w' = Build_World (provider_state w)
              (trace w ++ map line (seq 0 (Z.to_nat i))))).
  - intros i [] it w' (Hi & -> & ->) Hge.
    replace i with WC_SHA256_DIGEST_SIZE by lia. reflexivity.
  - intros i [] it w' (Hi & -> & ->) Hlt.
    cbn. repeat split; try lia.
    replace (Z.to_nat (i + 1)) with (S (Z.to_nat i)) by lia.
    rewrite seq_S, map_app, app_assoc. cbn.
    unfold line at 3. rewrite Z2Nat.id by lia. reflexivity.
  - cbn. rewrite app_nil_r. destruct w. repeat split; unfold WC_SHA256_DIGEST_SIZE; lia.
Qed.

(** On full buffers, agreeing at every index is being equal. *)
Lemma digests_agree_eq (hash : list byte) :
  Z.of_nat (List.length hash) = WC_SHA256_DIGEST_SIZE ->
  (FipsStartupCheck.digests_agree hash <-> hash = FipsStartupCheck.expected).
Proof.
  intros Hlen. split.
  - intros Hag.
    apply (nth_ext _ _ Byte.x00 Byte.x00).
    + unfold WC_SHA256_DIGEST_SIZE in Hlen.
      unfold FipsStartupCheck.expected. cbn [List.length]. lia.
    + intros n Hn.
      specialize (Hag (Z.of_nat n)). unfold index in Hag.
      rewrite Nat2Z.id in Hag. apply Hag.
      unfold WC_SHA256_DIGEST_SIZE in *. lia.
  - intros -> i _. reflexivity.
Qed.

Lemma digests_differ_not_agree (hash : list byte) :
  FipsStartupCheck.digests_differ hash -> ~ FipsStartupCheck.digests_agree hash.
Proof. intros (i & Hi & Hne) Hag. apply Hne, Hag, Hi. Qed.

(** ** Every run of [main] follows one of the paths *)

Ltac unfold_prog :=
  unfold bind, when, printf, emit, Return, pure, start,
    call_SetSeed_Cb, call_RunAllCast_fips, call_InitSha256,
    call_Sha256Update, call_Sha256Final;
  cbn.

Ltac call_step :=
  match goal with
  | |- context [wc_SetSeed_Cb ?P ?cb ?s] =>
      destruct (wc_SetSeed_Cb P cb s) as [?seed ?s]
  | |- context [wc_RunAllCast_fips ?P ?s] =>
      destruct (wc_RunAllCast_fips P s) as [?ret ?s]
  | |- context [wc_InitSha256 ?P ?s] =>
      destruct (wc_InitSha256 P s) as [[?ret ?sha] ?s]
  | |- context [wc_Sha256Update ?P ?sha ?d ?l ?s] =>
      destruct (wc_Sha256Update P sha d l s) as [[?ret ?sha] ?s]
  | |- context [wc_Sha256Final ?P ?sha ?s] =>
      destruct (wc_Sha256Final P sha s) as [[[?ret ?sha] ?hash] ?s]
  end; cbn.

Ltac status_step :=
  match goal with
  | |- context [negb (?r =? 0)] =>
      destruct (Z.eqb_spec r 0) as [-> | ?]; cbn
  end.

Ltac version_step :=
  match goal with
  | |- context [?v <? 5] => destruct (Z.ltb_spec v 5); cbn
  end.

Ltac compare_step :=
  match goal with
  | |- context [FipsStartupCheck.compare_loop ?h ?w] =>
      let E := fresh "E" in
      destruct (compare_loop_spec h w)
        as (?match_ & ?it & E & _ & [[-> ?Hagree] | [-> ?Hdiffer]]);
      rewrite E; cbn
  end.

Ltac print_step :=
  match goal with
  | |- context [TestFips.print_loop ?h ?w] =>
      rewrite (print_loop_spec h w); cbn
  end.

Ltac run_main :=
  unfold_prog;
  repeat first [version_step | call_step | status_step | compare_step | print_step].

Ltac side_condition :=
  first
    [ assumption
    | reflexivity
    | lia
    | split; cbn; first [reflexivity | lia | exact I] ].

Ltac find_path :=
  eexists; split; [reflexivity |];
  first
    [ eapply FipsStartupCheck.Rejected_FipsDisabled; side_condition
    | eapply FipsStartupCheck.Rejected_FipsVersionTooLow; side_condition
    | eapply FipsStartupCheck.Rejected_Cast; side_condition
    | eapply FipsStartupCheck.Rejected_DigestInit; side_condition
    | eapply FipsStartupCheck.Rejected_DigestUpdate; side_condition
    | eapply FipsStartupCheck.Rejected_DigestFinalize; side_condition
    | eapply FipsStartupCheck.Rejected_DigestMismatch; side_condition
    | eapply FipsStartupCheck.Run_Authorized; side_condition ].

Lemma startup_check_paths {PS Sha} (P : Provider PS Sha) cfg s0 :
  exists code,
    fst (FipsStartupCheck.main P cfg (start s0)) = Returned code /\
    FipsStartupCheck.path cfg code
      (trace (snd (FipsStartupCheck.main P cfg (start s0)))).
Proof.
  unfold FipsStartupCheck.main.
  destruct cfg as [[] [version |]]; run_main; find_path.
Qed.

Ltac find_test_path :=
  eexists; split; [reflexivity |];
  match goal with
  | |- TestFips.path ?cfg _ _ =>
      first
        [ eapply (TestFips.Rejected_Cast cfg); assumption
        | eapply (TestFips.Rejected_DigestInit cfg); assumption
        | eapply (TestFips.Rejected_DigestUpdate cfg); assumption
        | eapply (TestFips.Rejected_DigestFinalize cfg); assumption
        | eapply (TestFips.Run_AllPassed cfg) ]
  end.

Lemma test_fips_paths {PS Sha} (P : Provider PS Sha) cfg s0 :
  exists code,
    fst (TestFips.main P cfg (start s0)) = Returned code /\
    TestFips.path cfg code (trace (snd (TestFips.main P cfg (start s0)))).
Proof.
  unfold TestFips.main.
  destruct cfg as [[] [version |]]; run_main; find_test_path.
Qed.

Arguments index : simpl never.
Arguments byte_to_int : simpl never.

(** The same, phrased on the exit status and the events of the run. *)
Lemma startup_check_run {PS Sha} (P : Provider PS Sha) cfg s0 :
  fst (FipsStartupCheck.main P cfg (start s0)) =
    Returned (exit_code (FipsStartupCheck.main P cfg (start s0))) /\
  FipsStartupCheck.path cfg
    (exit_code (FipsStartupCheck.main P cfg (start s0)))
    (events (FipsStartupCheck.main P cfg (start s0))).
Proof.
  destruct (startup_check_paths P cfg s0) as (code & Hret & Hpath).
  unfold exit_code, events. rewrite Hret. split; [reflexivity | exact Hpath].
Qed.

Lemma test_fips_run {PS Sha} (P : Provider PS Sha) cfg s0 :
  fst (TestFips.main P cfg (start s0)) =
    Returned (exit_code (TestFips.main P cfg (start s0))) /\
  TestFips.path cfg
    (exit_code (TestFips.main P cfg (start s0)))
    (events (TestFips.main P cfg (start s0))).
Proof.
  destruct (test_fips_paths P cfg s0) as (code & Hret & Hpath).
  unfold exit_code, events. rewrite Hret. split; [reflexivity | exact Hpath].
Qed.

(** Case analysis on the path a run took.  The configuration is split
    first so that every trace is an explicit list. *)
Ltac startup_paths P cfg s0 :=
  let Hpath := fresh "Hpath" in
  let tr := fresh "tr" in
  let code := fresh "code" in
  destruct (startup_check_run P cfg s0) as [_ Hpath];
  set (tr := events (FipsStartupCheck.main P cfg (start s0))) in *;
  set (code := exit_code (FipsStartupCheck.main P cfg (start s0))) in *;
  clearbody tr code;
  destruct cfg as [[] [?version |]];
  inversion Hpath; subst; clear Hpath; cbn in *.

Ltac test_paths P cfg s0 :=
  let Hpath := fresh "Hpath" in
  let tr := fresh "tr" in
  let code := fresh "code" in
  destruct (test_fips_run P cfg s0) as [_ Hpath];
  set (tr := events (TestFips.main P cfg (start s0))) in *;
  set (code := exit_code (TestFips.main P cfg (start s0))) in *;
  clearbody tr code;
  destruct cfg as [[] [?version |]];
  inversion Hpath; subst; clear Hpath; cbn in *.

Set Warnings "-unused-intro-pattern".

(** Membership in an explicit trace. *)
Ltac in_trace H :=
  repeat (destruct H as [H | H];
          [ try discriminate H; try (injection H as H); subst | ]);
  try contradiction.

(** The same for the one membership hypothesis of the context. *)
Ltac in_trace_any :=
  match goal with
  | H : _ \/ _ |- _ => in_trace H
  end.

(** Finds an event in an explicit trace. *)
Ltac find_in :=
  first [ left; reflexivity | right; find_in ].

(** Splits an explicit trace in front of a given suffix. *)
Ltac split_trace :=
  match goal with
  | |- exists pre, ?l = pre ++ ?suf =>
      let rec go acc l :=
        first
          [ exists acc; reflexivity
          | match l with
            | ?x :: ?l' => go (acc ++ [x])%list l'
            end ] in
      go (@nil event) l
  end.

(** ** Short-circuit on the first failure *)

(** C5.  Whenever the self-test hands back a status other than 0, both
    programs print the CAST diagnostic with that very status right after
    the call, return 1, and make no digest call at all. *)
Theorem cast_failure_stops_run {PS Sha} (P : Provider PS Sha) cfg s0 code :
  code <> 0 ->
  (let r := FipsStartupCheck.main P cfg (start s0) in
   In (Ev_RunAllCast_fips code) (events r) ->
   fails_with r (Ev_RunAllCast_fips code :: FipsStartupCheck.CastFailure code) /\
   filter is_digest_call (events r) = []) /\
  (let r := TestFips.main P cfg (start s0) in
   In (Ev_RunAllCast_fips code) (events r) ->
   fails_with r (Ev_RunAllCast_fips code :: TestFips.CastFailure code) /\
   filter is_digest_call (events r) = []).
Proof.
  intros Hcode. split; intros r; subst r; unfold fails_with.
  - startup_paths P cfg s0.
    all: intros Hin; in_trace Hin.
    all: split; [split; [reflexivity | split_trace] | reflexivity].
  - test_paths P cfg s0.
    all: intros Hin; in_trace Hin.
    all: split; [split; [reflexivity | split_trace] | reflexivity].
Qed.

(** The verdict of the comparison is not in an explicit trace. *)
Ltac no_report :=
  let e := fresh "e" in
  let He := fresh "He" in
  let Hin := fresh "Hin" in
  intros (e & He & Hin);
  cbn in He, Hin; in_trace He; in_trace Hin.

(** No line of the digest print-out is in an explicit trace. *)
Ltac no_print :=
  let e := fresh "e" in
  let h := fresh "h" in
  let He := fresh "He" in
  let Hin := fresh "Hin" in
  intros (e & h & He & Hin);
  cbn in He, Hin; in_trace He; in_trace Hin.

(** C6.  Whenever one of the three digest calls hands back a status other
    than 0, both programs print the diagnostic of that call with that
    very status right after the call and return 1.  The digest calls of
    the run are exactly those up to the failing one.  The comparison
    leaves no event of its own; what the trace shows is that no verdict
    of it is reported ([fips-startup-check]) and no digest is printed
    ([test-fips]), whatever bytes [hash] holds. *)
Theorem digest_call_failure_stops_run {PS Sha} (P : Provider PS Sha) cfg s0 code :
  code <> 0 ->
  (let r := FipsStartupCheck.main P cfg (start s0) in
   (In (Ev_InitSha256 code) (events r) ->
    fails_with r
      (Ev_InitSha256 code :: FipsStartupCheck.DigestInitFailure code) /\
    filter is_digest_call (events r) = [Ev_InitSha256 code] /\
    ~ FipsStartupCheck.comparison_reported (events r)) /\
   (forall d l, In (Ev_Sha256Update d l code) (events r) ->
    fails_with r
      (Ev_Sha256Update d l code :: FipsStartupCheck.DigestUpdateFailure code) /\
    filter is_digest_call (events r) =
      [Ev_InitSha256 0; Ev_Sha256Update d l code] /\
    ~ FipsStartupCheck.comparison_reported (events r)) /\
   (forall hash, In (Ev_Sha256Final code hash) (events r) ->
    fails_with r
      (Ev_Sha256Final code hash ::
       FipsStartupCheck.DigestFinalizeFailure code) /\
    (exists d l,
       filter is_digest_call (events r) =
         [Ev_InitSha256 0; Ev_Sha256Update d l 0; Ev_Sha256Final code hash]) /\
    ~ FipsStartupCheck.comparison_reported (events r))) /\
  (let r := TestFips.main P cfg (start s0) in
   (In (Ev_InitSha256 code) (events r) ->
    fails_with r (Ev_InitSha256 code :: TestFips.DigestInitFailure code) /\
    filter is_digest_call (events r) = [Ev_InitSha256 code] /\
    ~ TestFips.digest_printed (events r)) /\
   (forall d l, In (Ev_Sha256Update d l code) (events r) ->
    fails_with r
      (Ev_Sha256Update d l code :: TestFips.DigestUpdateFailure code) /\
    filter is_digest_call (events r) =
      [Ev_InitSha256 0; Ev_Sha256Update d l code] /\
    ~ TestFips.digest_printed (events r)) /\
   (forall hash, In (Ev_Sha256Final code hash) (events r) ->
    fails_with r
      (Ev_Sha256Final code hash :: TestFips.DigestFinalizeFailure code) /\
    (exists d l,
       filter is_digest_call (events r) =
         [Ev_InitSha256 0; Ev_Sha256Update d l 0; Ev_Sha256Final code hash]) /\
    ~ TestFips.digest_printed (events r))).
Proof.
  intros Hcode.
  split; intros r; subst r;
    unfold fails_with, FipsStartupCheck.comparison_reported,
      TestFips.digest_printed.
  - startup_paths P cfg s0.
    all: split; [| split]; intros; in_trace_any.
    all: split;
      [ split; [reflexivity | split_trace]
      | split;
          [ first [reflexivity | do 2 eexists; reflexivity]
          | no_report ] ].
  - test_paths P cfg s0.
    all: split; [| split]; intros; in_trace_any.
    all: split;
      [ split; [reflexivity | split_trace]
      | split;
          [ first [reflexivity | do 2 eexists; reflexivity]
          | no_print ] ].
Qed.

(** Paths that the configuration at hand rules out. *)
Ltac impossible_path :=
  try discriminate;
  try lia;
  try match goal with
      | H : FipsStartupCheck.compile_time_ok _ |- _ =>
          destruct H as [? ?]; cbn in *; first [discriminate | lia]
      end.

(** The run went on to the self-test. *)
Ltac reaches_cast := do 3 eexists; reflexivity.

(** C3, as the code has it.  Without [HAVE_FIPS], [fips-startup-check]
    prints the FipsDisabled diagnostic, returns 1 and calls nothing in
    the library.  [test-fips] prints a warning and goes on to register
    the seed callback and run the self-test. *)
Theorem fips_disabled_behaviour {PS Sha} (P : Provider PS Sha) cfg s0 :
  HAVE_FIPS cfg = false ->
  (let r := FipsStartupCheck.main P cfg (start s0) in
   fails_with r FipsStartupCheck.FipsDisabled /\
   events r = (FipsStartupCheck.Start ++ FipsStartupCheck.FipsDisabled)%list /\
   filter is_provider_call (events r) = []) /\
  (let r := TestFips.main P cfg (start s0) in
   In TestFips.fips_disabled_warning (events r) /\
   exists seed c post,
     events r =
       (TestFips.ConfigReported cfg ++
        [ TestFips.cast_intro; Ev_SetSeed_Cb wc_GenerateSeed seed;
          Ev_RunAllCast_fips c ] ++ post)%list).
Proof.
  intros Hfips. split; intros r; subst r; unfold fails_with.
  - startup_paths P cfg s0; impossible_path.
    all: repeat split; try reflexivity; split_trace.
  - test_paths P cfg s0; impossible_path.
    all: split; [right; left; reflexivity | reaches_cast].
Qed.

(** C4, as the code has it.  With [HAVE_FIPS] and a version macro below
    5, [fips-startup-check] prints the FipsVersionTooLow diagnostic,
    returns 1 and calls nothing in the library, while [test-fips] only
    prints the version and goes on to the self-test.  With [HAVE_FIPS]
    and no version macro, both programs print a warning line and go on
    to the self-test. *)
Theorem fips_version_policy {PS Sha} (P : Provider PS Sha) cfg s0 :
  HAVE_FIPS cfg = true ->
  (forall version,
     HAVE_FIPS_VERSION cfg = Some version -> version < 5 ->
     (let r := FipsStartupCheck.main P cfg (start s0) in
      fails_with r FipsStartupCheck.FipsVersionTooLow /\
      filter is_provider_call (events r) = []) /\
     (let r := TestFips.main P cfg (start s0) in
      In (TestFips.fips_version version) (events r) /\
      exists seed c post,
        events r =
          (TestFips.ConfigReported cfg ++
           [ TestFips.cast_intro; Ev_SetSeed_Cb wc_GenerateSeed seed;
             Ev_RunAllCast_fips c ] ++ post)%list)) /\
  (HAVE_FIPS_VERSION cfg = None ->
     (let r := FipsStartupCheck.main P cfg (start s0) in
      In FipsStartupCheck.version_warning (events r) /\
      exists seed c post,
        events r =
          (FipsStartupCheck.CompileTimeChecked cfg ++
           [ FipsStartupCheck.cast_intro; Ev_SetSeed_Cb wc_GenerateSeed seed;
             Ev_RunAllCast_fips c ] ++ post)%list) /\
     (let r := TestFips.main P cfg (start s0) in
      In TestFips.version_warning (events r) /\
      exists seed c post,
        events r =
          (TestFips.ConfigReported cfg ++
           [ TestFips.cast_intro; Ev_SetSeed_Cb wc_GenerateSeed seed;
             Ev_RunAllCast_fips c ] ++ post)%list)).
Proof.
  intros Hfips. split.
  - intros v Hv Hlow. split; intros r; subst r; unfold fails_with.
    + startup_paths P cfg s0; impossible_path.
      all: injection Hv as ->; impossible_path.
      all: repeat split; try reflexivity; split_trace.
    + test_paths P cfg s0; impossible_path.
      all: injection Hv as ->.
      all: split; [do 2 right; left; reflexivity | reaches_cast].
  - intros Hnone. split; intros r; subst r.
    + startup_paths P cfg s0; impossible_path.
      all: split; [do 5 right; left; reflexivity | reaches_cast].
    + test_paths P cfg s0; impossible_path.
      all: split; [do 2 right; left; reflexivity | reaches_cast].
Qed.

(** ** Exit status *)

(** Symbolic execution for goals that also mention the provider on its
    own: the digest input is evaluated, and a status is split before
    the next call is named, so that a call shared by the program and by
    the provider-side term is named once. *)
Ltac input_step :=
  progress
    change (firstn (Pos.to_nat 3) [Byte.x61; Byte.x62; Byte.x63; Byte.x00])
      with [Byte.x61; Byte.x62; Byte.x63].

Ltac run_session :=
  unfold_prog;
  repeat first
    [ input_step | version_step | status_step | call_step
    | compare_step | print_step ].

Lemma startup_check_exit_0_or_1 {PS Sha} (P : Provider PS Sha) cfg s0 :
  exit_code (FipsStartupCheck.main P cfg (start s0)) = 0 \/
  exit_code (FipsStartupCheck.main P cfg (start s0)) = 1.
Proof.
  destruct (startup_check_run P cfg s0) as [_ Hpath].
  inversion Hpath; auto.
Qed.

Lemma test_fips_exit_0_or_1 {PS Sha} (P : Provider PS Sha) cfg s0 :
  exit_code (TestFips.main P cfg (start s0)) = 0 \/
  exit_code (TestFips.main P cfg (start s0)) = 1.
Proof.
  destruct (test_fips_run P cfg s0) as [_ Hpath].
  inversion Hpath; auto.
Qed.

Lemma expected_not_differ : ~ FipsStartupCheck.digests_differ FipsStartupCheck.expected.
Proof. intros (i & _ & Hne). apply Hne. reflexivity. Qed.

(** What the comparison loop decides is equality of the 32 cells with
    the constant, for a buffer of any length: a list too short to be a
    buffer never agrees, since [expected] does not end in a zero byte. *)
Lemma digests_agree_matches (hash : list byte) :
  FipsStartupCheck.digests_agree hash <-> digest_matches hash.
Proof.
  unfold FipsStartupCheck.digests_agree, digest_matches, index,
    WC_SHA256_DIGEST_SIZE.
  change (Z.to_nat 32) with 32%nat.
  split.
  - intros Hag.
    assert (Hlen : (32 <= List.length hash)%nat).
    { destruct (Nat.le_gt_cases 32 (List.length hash)) as [H | H]; [exact H |].
      specialize (Hag 31 ltac:(lia)).
      rewrite nth_overflow in Hag by (change (Z.to_nat 31) with 31%nat; lia).
      discriminate Hag. }
    apply (nth_ext _ _ Byte.x00 Byte.x00).
    + rewrite firstn_length_le by exact Hlen. reflexivity.
    + intros n Hn. rewrite firstn_length_le in Hn by exact Hlen.
      rewrite nth_firstn.
      destruct (Nat.ltb_spec n 32) as [_ | Hge]; [| lia].
      specialize (Hag (Z.of_nat n) ltac:(lia)).
      rewrite Nat2Z.id in Hag. exact Hag.
  - intros Heq i Hi. rewrite <- Heq.
    rewrite nth_firstn.
    destruct (Nat.ltb_spec (Z.to_nat i) 32) as [_ | Hge]; [reflexivity | lia].
Qed.

Lemma startup_check_exit_0_iff {PS Sha} (P : Provider PS Sha) cfg s0 :
  exit_code (FipsStartupCheck.main P cfg (start s0)) = 0 <->
  three_checks_pass cfg (provider_answers P s0).
Proof.
  unfold three_checks_pass, library_calls_succeed, provider_answers,
    FipsStartupCheck.compile_time_ok, exit_code, FipsStartupCheck.main.
  destruct cfg as [[] [version |]]; run_session.
  all: rewrite <- digests_agree_matches.
  all: split;
    [ intros Hexit; try discriminate Hexit
    | intros ((Hfips & Hversion) & (Hcast & Hinit & Hupdate & Hfinal) & Hdigest) ].
  all: try reflexivity.
  all: try (exfalso; first [lia | discriminate Hfips | contradiction]).
  all: try (exfalso; eapply digests_differ_not_agree; eassumption).
  all: repeat split; first [assumption | lia].
Qed.

Lemma test_fips_exit_0_iff {PS Sha} (P : Provider PS Sha) cfg s0 :
  exit_code (TestFips.main P cfg (start s0)) = 0 <->
  library_calls_succeed (provider_answers P s0).
Proof.
  unfold library_calls_succeed, provider_answers, exit_code, TestFips.main.
  destruct cfg as [[] [version |]]; run_session.
  all: split;
    [ intros Hexit; try discriminate Hexit
    | intros (Hcast & Hinit & Hupdate & Hfinal) ].
  all: try reflexivity.
  all: try (exfalso; first [lia | contradiction]).
  all: repeat split; reflexivity.
Qed.

(** C1, as the code has it.  The checks are read off the build flags
    and off what the provider itself answers, not off the run.
    [fips-startup-check] returns 0 exactly when all three checks pass
    (an accepted build; a self-test that answers 0; digest calls that
    answer 0 and leave the expected 32 bytes in the buffer) and 1
    exactly when they do not.  [test-fips] returns 0 exactly when the
    self-test and the three digest calls answer 0, whatever the build
    flags and the digest are, and 1 otherwise.  Neither program has
    another exit status. *)
Theorem exit_status_reflects_checks {PS Sha} (P : Provider PS Sha) cfg s0 :
  (let r := FipsStartupCheck.main P cfg (start s0) in
   (exit_code r = 0 <-> three_checks_pass cfg (provider_answers P s0)) /\
   (exit_code r = 1 <-> ~ three_checks_pass cfg (provider_answers P s0)) /\
   (exit_code r = 0 \/ exit_code r = 1)) /\
  (let r := TestFips.main P cfg (start s0) in
   (exit_code r = 0 <-> library_calls_succeed (provider_answers P s0)) /\
   (exit_code r = 1 <-> ~ library_calls_succeed (provider_answers P s0)) /\
   (exit_code r = 0 \/ exit_code r = 1)).
Proof.
  split; intros r; subst r.
  - pose proof (startup_check_exit_0_iff P cfg s0) as Hiff.
    pose proof (startup_check_exit_0_or_1 P cfg s0) as Hcode.
    split; [exact Hiff | split; [split | exact Hcode]].
    + intros H1 Hall. apply Hiff in Hall. lia.
    + intros Hnot. destruct Hcode as [H0 | H1]; [| exact H1].
      exfalso. apply Hnot, Hiff, H0.
  - pose proof (test_fips_exit_0_iff P cfg s0) as Hiff.
    pose proof (test_fips_exit_0_or_1 P cfg s0) as Hcode.
    split; [exact Hiff | split; [split | exact Hcode]].
    + intros H1 Hall. apply Hiff in Hall. lia.
    + intros Hnot. destruct Hcode as [H0 | H1]; [| exact H1].
      exfalso. apply Hnot, Hiff, H0.
Qed.

(** C2, as the code has it.  In [fips-startup-check], when the three
    digest calls report 0 and the 32-byte digest is not the expected
    constant, the run ends with the DigestMismatch diagnostic and status
    1; the comparison loop clears [match] for every such digest and for
    no other.  [test-fips] compares nothing: it prints the digest and
    returns 0. *)
Theorem digest_mismatch_behaviour {PS Sha} (P : Provider PS Sha) cfg s0 hash :
  Z.of_nat (List.length hash) = WC_SHA256_DIGEST_SIZE ->
  hash <> FipsStartupCheck.expected ->
  (let r := FipsStartupCheck.main P cfg (start s0) in
   In (Ev_InitSha256 0) (events r) ->
   In (Ev_Sha256Update (list_byte_of_string "abc") 3 0) (events r) ->
   In (Ev_Sha256Final 0 hash) (events r) ->
   fails_with r FipsStartupCheck.DigestMismatch) /\
  (forall w : World PS,
     exists it, FipsStartupCheck.compare_loop hash w = (Normal (0, it), w)) /\
  (forall w : World PS,
     exists it,
       FipsStartupCheck.compare_loop FipsStartupCheck.expected w =
       (Normal (1, it), w)) /\
  (let r := TestFips.main P cfg (start s0) in
   In (Ev_Sha256Final 0 hash) (events r) ->
   exit_code r = 0 /\
   exists pre, events r = (pre ++ TestFips.AllPassed hash)%list).
Proof.
  intros Hlen Hne.
  assert (Hnag : ~ FipsStartupCheck.digests_agree hash).
  { intros Hag. apply Hne. apply digests_agree_eq; assumption. }
  split; [| split; [| split]].
  - intros r; subst r; unfold fails_with.
    startup_paths P cfg s0.
    all: intros Hinit Hupd Hfin; in_trace Hinit; in_trace Hupd; in_trace Hfin.
    all: try contradiction.
    all: split; [reflexivity | split_trace].
  - intros w.
    destruct (compare_loop_spec hash w)
      as (m & it & E & _ & [[-> Hag] | [-> _]]); [contradiction |].
    exists it. exact E.
  - intros w.
    destruct (compare_loop_spec FipsStartupCheck.expected w)
      as (m & it & E & _ & [[-> _] | [-> Hdf]]).
    + exists it. exact E.
    + exfalso. exact (expected_not_differ Hdf).
  - intros r; subst r.
    test_paths P cfg s0.
    all: intros Hfin; in_trace Hfin.
    all: try contradiction.
    all: split; [reflexivity | split_trace].
Qed.

(** ** Order of the calls *)

Lemma cast_after_seed_sound (pre : list event) :
  forall registered c post,
    cast_after_seed registered (pre ++ Ev_RunAllCast_fips c :: post) = true ->
    registered = true \/
    exists seed, In (Ev_SetSeed_Cb wc_GenerateSeed seed) pre.
Proof.
  induction pre as [| e pre IH]; intros registered c post Hscan.
  - cbn in Hscan. apply andb_true_iff in Hscan. left. apply Hscan.
  - destruct e as [fmt args | [] seed | c' | r | d l r | r h]; cbn in Hscan.
    + destruct (IH _ _ _ Hscan) as [Hreg | [seed Hin]];
        [left; exact Hreg | right; exists seed; right; exact Hin].
    + right. exists seed. left. reflexivity.
    + apply andb_true_iff in Hscan. left. apply Hscan.
    + destruct (IH _ _ _ Hscan) as [Hreg | [seed Hin]];
        [left; exact Hreg | right; exists seed; right; exact Hin].
    + destruct (IH _ _ _ Hscan) as [Hreg | [seed Hin]];
        [left; exact Hreg | right; exists seed; right; exact Hin].
    + destruct (IH _ _ _ Hscan) as [Hreg | [seed Hin]];
        [left; exact Hreg | right; exists seed; right; exact Hin].
Qed.

Lemma startup_check_cast_after_seed {PS Sha} (P : Provider PS Sha) cfg s0 :
  cast_after_seed false (events (FipsStartupCheck.main P cfg (start s0))) = true.
Proof. startup_paths P cfg s0; reflexivity. Qed.

Lemma test_fips_cast_after_seed {PS Sha} (P : Provider PS Sha) cfg s0 :
  cast_after_seed false (events (TestFips.main P cfg (start s0))) = true.
Proof. test_paths P cfg s0; reflexivity. Qed.

(** C9.  In every run of either program, whatever precedes a call of the
    self-test in the trace contains the registration of
    [wc_GenerateSeed] as seed callback. *)
Theorem seed_callback_registered_before_cast {PS Sha} (P : Provider PS Sha) cfg s0 :
  (forall pre c post,
     events (FipsStartupCheck.main P cfg (start s0)) =
       (pre ++ Ev_RunAllCast_fips c :: post)%list ->
     exists seed, In (Ev_SetSeed_Cb wc_GenerateSeed seed) pre) /\
  (forall pre c post,
     events (TestFips.main P cfg (start s0)) =
       (pre ++ Ev_RunAllCast_fips c :: post)%list ->
     exists seed, In (Ev_SetSeed_Cb wc_GenerateSeed seed) pre).
Proof.
  split; intros pre c post Hsplit.
  - pose proof (startup_check_cast_after_seed P cfg s0) as Hscan.
    rewrite Hsplit in Hscan.
    destruct (cast_after_seed_sound _ _ _ _ Hscan) as [Hreg | Hin];
      [discriminate Hreg | exact Hin].
  - pose proof (test_fips_cast_after_seed P cfg s0) as Hscan.
    rewrite Hsplit in Hscan.
    destruct (cast_after_seed_sound _ _ _ _ Hscan) as [Hreg | Hin];
      [discriminate Hreg | exact Hin].
Qed.

(** C10.  Both programs end in a [return] whose status is 0 or 1, for
    every build and for every provider whose calls return.  The
    comparison loop runs its body at most [WC_SHA256_DIGEST_SIZE] = 32
    times and the printing loop exactly that often; both fall through to
    the next statement. *)
Theorem both_programs_terminate {PS Sha} (P : Provider PS Sha) cfg s0 :
  (let r := FipsStartupCheck.main P cfg (start s0) in
   fst r = Returned (exit_code r) /\ (exit_code r = 0 \/ exit_code r = 1)) /\
  (let r := TestFips.main P cfg (start s0) in
   fst r = Returned (exit_code r) /\ (exit_code r = 0 \/ exit_code r = 1)) /\
  (forall hash (w : World PS),
     exists match_ it,
       FipsStartupCheck.compare_loop hash w = (Normal (match_, it), w) /\
       Z.of_nat it <= WC_SHA256_DIGEST_SIZE) /\
  (forall hash (w : World PS),
     exists it w',
       TestFips.print_loop hash w = (Normal (tt, it), w') /\
       Z.of_nat it = WC_SHA256_DIGEST_SIZE).
Proof.
  repeat split.
  - apply startup_check_run.
  - apply startup_check_exit_0_or_1.
  - apply test_fips_run.
  - apply test_fips_exit_0_or_1.
  - intros hash w.
    destruct (compare_loop_spec hash w) as (m & it & E & Hit & _).
    exists m, it. split; [exact E | unfold WC_SHA256_DIGEST_SIZE; lia].
  - intros hash w. rewrite print_loop_spec.
    do 2 eexists. split; reflexivity.
Qed.

(** ** Determinism *)

Lemma startup_check_path_determined cfg c1 t1 c2 t2 :
  FipsStartupCheck.path cfg c1 t1 ->
  FipsStartupCheck.path cfg c2 t2 ->
  responses t1 = responses t2 ->
  c1 = c2 /\ t1 = t2.
Proof.
  intros H1 H2.
  destruct cfg as [[] [version |]].
  all: inversion H1; subst; inversion H2; subst; cbn.
  all: intros E; try discriminate E.
  all: try (injection E; intros; subst).
  all: try contradiction.
  all: try (split; reflexivity).
  all: try (exfalso; eapply digests_differ_not_agree; eassumption).
  all: match goal with
       | H : HAVE_FIPS _ = _ |- _ => discriminate H
       end.
Qed.

(** C8.  The exit status, the whole report and the digest bytes of a run
    of [fips-startup-check] are determined by the build flags and by
    what the library calls hand back: two runs against any two providers
    that answer alike end alike. *)
Theorem startup_check_deterministic {PS1 Sha1 PS2 Sha2}
    (P1 : Provider PS1 Sha1) (P2 : Provider PS2 Sha2) cfg s1 s2 :
  let r1 := FipsStartupCheck.main P1 cfg (start s1) in
  let r2 := FipsStartupCheck.main P2 cfg (start s2) in
  responses (events r1) = responses (events r2) ->
  exit_code r1 = exit_code r2 /\
  fst r1 = fst r2 /\
  events r1 = events r2 /\
  computed_digest (events r1) = computed_digest (events r2).
Proof.
  intros r1 r2 Hresp.
  destruct (startup_check_run P1 cfg s1) as [Hret1 Hpath1].
  destruct (startup_check_run P2 cfg s2) as [Hret2 Hpath2].
  destruct (startup_check_path_determined _ _ _ _ _ Hpath1 Hpath2 Hresp)
    as [Hcode Htrace].
  subst r1 r2. repeat split.
  - exact Hcode.
  - rewrite Hret1, Hret2, Hcode. reflexivity.
  - exact Htrace.
  - rewrite Htrace. reflexivity.
Qed.

(** ** The constant and the input *)

(** C7.  [expected] is the 32-byte sequence
    ba7816bf...f20015ad, which is SHA-256 of the three bytes of "abc",
    and every call of [wc_Sha256Update] made by [fips-startup-check] is
    fed exactly those three bytes with length 3. *)
Theorem expected_digest_and_input {PS Sha} (P : Provider PS Sha) cfg s0 :
  hex_of_bytes FipsStartupCheck.expected =
    "ba7816bf8f01cfea414140de5dae2223b00361a396177a9cb410ff61f20015ad"%string /\
  Z.of_nat (List.length FipsStartupCheck.expected) = WC_SHA256_DIGEST_SIZE /\
  WC_SHA256_DIGEST_SIZE = 32 /\
  FipsStartupCheck.expected = SHA256.sha256 (list_byte_of_string "abc") /\
  firstn 3 FipsStartupCheck.testData = list_byte_of_string "abc" /\
  list_byte_of_string "abc" = [Byte.x61; Byte.x62; Byte.x63] /\
  (forall d l ret,
     In (Ev_Sha256Update d l ret)
        (events (FipsStartupCheck.main P cfg (start s0))) ->
     d = list_byte_of_string "abc" /\ l = 3 /\ Z.of_nat (List.length d) = l).
Proof.
  split; [vm_compute; reflexivity |].
  split; [reflexivity |].
  split; [reflexivity |].
  split; [vm_compute; reflexivity |].
  split; [reflexivity |].
  split; [reflexivity |].
  intros d l ret.
  startup_paths P cfg s0.
  all: intros Hin; in_trace Hin.
  all: repeat split.
Qed.

(** * Concrete runs *)

(** Evaluates the membership of an event in the trace of a concrete run. *)
Ltac in_run := vm_compute; find_in.

(** The nominal scenario: FIPS build of version 5 against a provider
    that computes SHA-256. *)
Example nominal_run :
  exit_code (FipsStartupCheck.main sha256_provider fips_v5 (start None)) = 0 /\
  events (FipsStartupCheck.main sha256_provider fips_v5 (start None)) =
    (FipsStartupCheck.DigestChecked fips_v5 0 FipsStartupCheck.expected ++
     FipsStartupCheck.Authorized)%list /\
  provider_state
    (snd (FipsStartupCheck.main sha256_provider fips_v5 (start None))) =
    Some wc_GenerateSeed.
Proof. vm_compute. repeat split. Qed.

(** ** Where [test-fips] departs from the claims *)

(** C1 fails for [test-fips]: built without FIPS and handed an all-zero
    digest, it returns 0 although checks 1 and 3 do not pass. *)
Lemma test_fips_exits_0_without_checks :
  exit_code (TestFips.main zero_digest_provider no_fips (start tt)) = 0 /\
  ~ three_checks_pass no_fips (provider_answers zero_digest_provider tt) /\
  ~ digest_matches (digest (provider_answers zero_digest_provider tt)).
Proof.
  split; [vm_compute; reflexivity | split].
  - intros [[Hfips _] _]. discriminate Hfips.
  - intros Hdigest. discriminate Hdigest.
Qed.

(** C2 fails for [test-fips]: the three digest calls report 0, the
    32-byte digest is all zeros, and the program returns 0. *)
Lemma test_fips_ignores_mismatch :
  In (Ev_InitSha256 0)
     (events (TestFips.main zero_digest_provider fips_v5 (start tt))) /\
  In (Ev_Sha256Update (list_byte_of_string "abc") 3 0)
     (events (TestFips.main zero_digest_provider fips_v5 (start tt))) /\
  In (Ev_Sha256Final 0 zero_digest)
     (events (TestFips.main zero_digest_provider fips_v5 (start tt))) /\
  Z.of_nat (List.length zero_digest) = WC_SHA256_DIGEST_SIZE /\
  zero_digest <> FipsStartupCheck.expected /\
  exit_code (TestFips.main zero_digest_provider fips_v5 (start tt)) = 0.
Proof.
  split; [in_run | split; [in_run | split; [in_run |]]].
  split; [reflexivity | split; [| vm_compute; reflexivity]].
  intros Heq. discriminate Heq.
Qed.

(** C3 fails for [test-fips]: built without FIPS, it runs the self-test
    and the digest calls and returns 0. *)
Lemma test_fips_runs_cast_without_fips :
  HAVE_FIPS no_fips = false /\
  In (Ev_RunAllCast_fips 0)
     (events (TestFips.main passing_provider no_fips (start tt))) /\
  In (Ev_InitSha256 0)
     (events (TestFips.main passing_provider no_fips (start tt))) /\
  exit_code (TestFips.main passing_provider no_fips (start tt)) = 0.
Proof.
  split; [reflexivity | split; [in_run | split; [in_run |]]].
  vm_compute; reflexivity.
Qed.

(** C4 fails for [test-fips]: with version macro 4, it runs the
    self-test and returns 0. *)
Lemma test_fips_accepts_old_version :
  HAVE_FIPS fips_v4 = true /\
  HAVE_FIPS_VERSION fips_v4 = Some 4 /\
  In (Ev_RunAllCast_fips 0)
     (events (TestFips.main passing_provider fips_v4 (start tt))) /\
  exit_code (TestFips.main passing_provider fips_v4 (start tt)) = 0.
Proof.
  split; [reflexivity | split; [reflexivity | split; [in_run |]]].
  vm_compute; reflexivity.
Qed.

(** ** The theorems at concrete inputs *)

(** A build of version 6 against a provider that computes SHA-256: all
    three checks pass, hence status 0. *)
Lemma exit_status_witness :
  three_checks_pass fips_v6 (provider_answers sha256_provider None) /\
  exit_code (FipsStartupCheck.main sha256_provider fips_v6 (start None)) = 0.
Proof.
  assert (Hpass :
    three_checks_pass fips_v6 (provider_answers sha256_provider None)).
  { split; [split; [reflexivity | discriminate] |].
    split; [vm_compute; repeat split |].
    vm_compute. reflexivity. }
  split; [exact Hpass |].
  exact (proj2 (proj1 (proj1 (exit_status_reflects_checks
           sha256_provider fips_v6 None))) Hpass).
Defined.

(** A digest of zeros is rejected by [fips-startup-check]. *)
Lemma digest_mismatch_witness :
  Z.of_nat (List.length zero_digest) = WC_SHA256_DIGEST_SIZE /\
  zero_digest <> FipsStartupCheck.expected /\
  fails_with
    (FipsStartupCheck.main zero_digest_provider fips_v5 (start tt))
    FipsStartupCheck.DigestMismatch.
Proof.
  assert (Hne : zero_digest <> FipsStartupCheck.expected)
    by (intros Heq; discriminate Heq).
  split; [reflexivity | split; [exact Hne |]].
  refine (proj1 (digest_mismatch_behaviour zero_digest_provider
                   fips_v5 tt zero_digest eq_refl Hne) _ _ _); in_run.
Defined.

(** A build without FIPS is rejected by [fips-startup-check]. *)
Lemma fips_disabled_witness :
  HAVE_FIPS no_fips = false /\
  fails_with
    (FipsStartupCheck.main passing_provider no_fips (start tt))
    FipsStartupCheck.FipsDisabled.
Proof.
  split; [reflexivity |].
  exact (proj1 (proj1 (fips_disabled_behaviour
           passing_provider no_fips tt eq_refl))).
Defined.

(** Version 4 is rejected by [fips-startup-check]; a build without the
    version macro gets the warning line. *)
Lemma fips_version_witness :
  (HAVE_FIPS fips_v4 = true /\
   HAVE_FIPS_VERSION fips_v4 = Some 4 /\
   4 < 5 /\
   fails_with
     (FipsStartupCheck.main passing_provider fips_v4 (start tt))
     FipsStartupCheck.FipsVersionTooLow) /\
  (HAVE_FIPS fips_no_version = true /\
   HAVE_FIPS_VERSION fips_no_version = None /\
   In FipsStartupCheck.version_warning
     (events
        (FipsStartupCheck.main passing_provider fips_no_version (start tt)))).
Proof.
  split.
  - split; [reflexivity | split; [reflexivity | split; [reflexivity |]]].
    exact (proj1 (proj1 (proj1 (fips_version_policy
             passing_provider fips_v4 tt eq_refl) 4 eq_refl eq_refl))).
  - split; [reflexivity | split; [reflexivity |]].
    exact (proj1 (proj1 (proj2 (fips_version_policy
             passing_provider fips_no_version tt eq_refl) eq_refl))).
Defined.

(** A self-test that answers 7. *)
Lemma cast_failure_witness :
  7 <> 0 /\
  fails_with
    (FipsStartupCheck.main cast_failing_provider fips_v5 (start tt))
    (Ev_RunAllCast_fips 7 :: FipsStartupCheck.CastFailure 7) /\
  fails_with
    (TestFips.main cast_failing_provider fips_v5 (start tt))
    (Ev_RunAllCast_fips 7 :: TestFips.CastFailure 7).
Proof.
  assert (Hne : 7 <> 0) by discriminate.
  destruct (cast_failure_stops_run cast_failing_provider fips_v5 tt 7 Hne)
    as [Hstartup Htest].
  split; [exact Hne | split].
  - refine (proj1 (Hstartup _)). in_run.
  - refine (proj1 (Htest _)). in_run.
Defined.

(** An initialisation and a finalisation that answer 9. *)
Lemma digest_call_failure_witness :
  9 <> 0 /\
  fails_with
    (FipsStartupCheck.main init_failing_provider fips_v5 (start tt))
    (Ev_InitSha256 9 :: FipsStartupCheck.DigestInitFailure 9) /\
  fails_with
    (TestFips.main final_failing_provider fips_v5 (start tt))
    (Ev_Sha256Final 9 zero_digest :: TestFips.DigestFinalizeFailure 9).
Proof.
  assert (Hne : 9 <> 0) by discriminate.
  split; [exact Hne | split].
  - refine (proj1 (proj1 (proj1 (digest_call_failure_stops_run
              init_failing_provider fips_v5 tt 9 Hne)) _)).
    in_run.
  - refine (proj1 (proj2 (proj2 (proj2 (digest_call_failure_stops_run
              final_failing_provider fips_v5 tt 9 Hne)))
              zero_digest _)).
    in_run.
Defined.

(** The update call of the nominal run. *)
Lemma expected_digest_witness :
  In (Ev_Sha256Update (list_byte_of_string "abc") 3 0)
     (events (FipsStartupCheck.main sha256_provider fips_v5 (start None))) /\
  Z.of_nat (List.length (list_byte_of_string "abc")) = 3.
Proof.
  assert (Hin :
    In (Ev_Sha256Update (list_byte_of_string "abc") 3 0)
       (events (FipsStartupCheck.main sha256_provider fips_v5 (start None))))
    by in_run.
  split; [exact Hin |].
  exact (proj2 (proj2
           (proj2 (proj2 (proj2 (proj2 (proj2 (proj2
              (expected_digest_and_input sha256_provider fips_v5 None))))))
              _ _ _ Hin))).
Defined.

(** Two providers of different make that answer alike. *)
Lemma deterministic_witness :
  responses
    (events (FipsStartupCheck.main passing_provider fips_v5 (start tt))) =
  responses
    (events (FipsStartupCheck.main sha256_provider fips_v5 (start None))) /\
  exit_code (FipsStartupCheck.main passing_provider fips_v5 (start tt)) =
  exit_code (FipsStartupCheck.main sha256_provider fips_v5 (start None)) /\
  events (FipsStartupCheck.main passing_provider fips_v5 (start tt)) =
  events (FipsStartupCheck.main sha256_provider fips_v5 (start None)).
Proof.
  assert (Hresp :
    responses
      (events (FipsStartupCheck.main passing_provider fips_v5 (start tt))) =
    responses
      (events (FipsStartupCheck.main sha256_provider fips_v5 (start None))))
    by (vm_compute; reflexivity).
  split; [exact Hresp |].
  destruct (startup_check_deterministic passing_provider sha256_provider
              fips_v5 tt None Hresp) as (Hcode & _ & Htrace & _).
  split; [exact Hcode | exact Htrace].
Defined.

(** The nominal run, cut at the call of the self-test. *)
Lemma seed_callback_witness :
  events (FipsStartupCheck.main sha256_provider fips_v5 (start None)) =
    ((FipsStartupCheck.CompileTimeChecked fips_v5 ++
      [FipsStartupCheck.cast_intro; Ev_SetSeed_Cb wc_GenerateSeed 0]) ++
     Ev_RunAllCast_fips 0 ::
     [FipsStartupCheck.cast_passed; FipsStartupCheck.digest_intro;
      Ev_InitSha256 0;
      Ev_Sha256Update (list_byte_of_string "abc") 3 0;
      Ev_Sha256Final 0 FipsStartupCheck.expected] ++
     FipsStartupCheck.Authorized)%list /\
  exists seed,
    In (Ev_SetSeed_Cb wc_GenerateSeed seed)
       (FipsStartupCheck.CompileTimeChecked fips_v5 ++
        [FipsStartupCheck.cast_intro; Ev_SetSeed_Cb wc_GenerateSeed 0]).
Proof.
  assert (Hsplit :
    events (FipsStartupCheck.main sha256_provider fips_v5 (start None)) =
      ((FipsStartupCheck.CompileTimeChecked fips_v5 ++
        [FipsStartupCheck.cast_intro; Ev_SetSeed_Cb wc_GenerateSeed 0]) ++
       Ev_RunAllCast_fips 0 ::
       [FipsStartupCheck.cast_passed; FipsStartupCheck.digest_intro;
        Ev_InitSha256 0;
        Ev_Sha256Update (list_byte_of_string "abc") 3 0;
        Ev_Sha256Final 0 FipsStartupCheck.expected] ++
       FipsStartupCheck.Authorized)%list)
    by (vm_compute; reflexivity).
  split; [exact Hsplit |].
  exact (proj1 (seed_callback_registered_before_cast
                  sha256_provider fips_v5 None) _ _ _ Hsplit).
Defined.

(** * Further properties of the two programs *)

(** ** When the library is called, and in which order *)

(** X1.  [fips-startup-check] calls the library exactly when check 1
    accepts the build: [HAVE_FIPS] is defined and the version macro, if
    there is one, is at least 5.  On an accepted build the self-test is
    run; on any other build no entry point is called. *)
Theorem startup_check_calls_iff_build_ok {PS Sha} (P : Provider PS Sha) cfg s0 :
  (FipsStartupCheck.compile_time_ok cfg <->
   exists c,
     In (Ev_RunAllCast_fips c)
        (events (FipsStartupCheck.main P cfg (start s0)))) /\
  (~ FipsStartupCheck.compile_time_ok cfg <->
   filter is_provider_call
     (events (FipsStartupCheck.main P cfg (start s0))) = []).
Proof.
  startup_paths P cfg s0.
  all: unfold FipsStartupCheck.compile_time_ok in *; cbn in *.
  all: repeat match goal with
         | H : Some _ = Some _ |- _ => injection H as H; subst
         | H : _ /\ _ |- _ => destruct H
         end.
  all: split; split.
  all: first
    [ solve [intros [? ?]; exfalso; first [discriminate | lia]]
    | solve [intros _; eexists; find_in]
    | solve [intros [c Hin]; in_trace Hin]
    | solve [intros _; split; first [reflexivity | assumption | exact I]]
    | solve [intros Hnot; exfalso; apply Hnot; split;
             first [reflexivity | assumption | exact I]]
    | solve [intros _; reflexivity]
    | solve [intros Hnil; discriminate Hnil]
    | solve [intros _ [? ?]; first [discriminate | lia]]
    | solve [exfalso; first [discriminate | lia]] ].
Qed.

(** X2.  In every run of either program the library calls are the five
    entry points in source order, each at most once, with "abc" and
    length 3 as digest input, and the sequence is cut after the first
    call (other than the seed registration) whose status is not 0.
    [test-fips] always gets as far as the self-test. *)
Theorem library_calls_in_order {PS Sha} (P : Provider PS Sha) cfg s0 :
  call_sequence
    (filter is_provider_call
       (events (FipsStartupCheck.main P cfg (start s0)))) /\
  call_sequence
    (filter is_provider_call (events (TestFips.main P cfg (start s0)))) /\
  filter is_provider_call (events (TestFips.main P cfg (start s0))) <> [].
Proof.
  split; [| split].
  - startup_paths P cfg s0.
    all: first [ apply calls_none
               | apply calls_to_cast; assumption
               | apply calls_to_init; assumption
               | apply calls_to_update; assumption
               | apply calls_to_final ].
  - test_paths P cfg s0.
    all: first [ apply calls_to_cast; assumption
               | apply calls_to_init; assumption
               | apply calls_to_update; assumption
               | apply calls_to_final ].
  - test_paths P cfg s0.
    all: discriminate.
Qed.

(** ** The two programs and the library *)

Lemma startup_check_session {PS Sha} (P : Provider PS Sha) cfg s0 :
  FipsStartupCheck.compile_time_ok cfg ->
  session_of (snd (FipsStartupCheck.main P cfg (start s0))) =
  library_session P s0.
Proof.
  unfold session_of, library_session, FipsStartupCheck.main.
  intros [Hfips Hversion].
  destruct cfg as [[] [version |]]; cbn in Hfips, Hversion;
    try discriminate Hfips.
  all: run_session; try lia; reflexivity.
Qed.

Lemma test_fips_session {PS Sha} (P : Provider PS Sha) cfg s0 :
  session_of (snd (TestFips.main P cfg (start s0))) = library_session P s0.
Proof.
  unfold session_of, library_session, TestFips.main.
  destruct cfg as [[] [version |]].
  all: run_session; reflexivity.
Qed.

Lemma startup_check_no_session {PS Sha} (P : Provider PS Sha) cfg s0 :
  ~ FipsStartupCheck.compile_time_ok cfg ->
  session_of (snd (FipsStartupCheck.main P cfg (start s0))) = ([], s0).
Proof.
  unfold session_of, FipsStartupCheck.compile_time_ok, FipsStartupCheck.main.
  intros Hnot.
  destruct cfg as [[] [version |]]; cbn in Hnot; unfold_prog;
    try reflexivity.
  - destruct (Z.ltb_spec version 5); cbn; [reflexivity |].
    exfalso. apply Hnot. split; [reflexivity | assumption].
  - exfalso. apply Hnot. split; [reflexivity | exact I].
Qed.

Lemma compile_time_ok_dec cfg :
  FipsStartupCheck.compile_time_ok cfg \/ ~ FipsStartupCheck.compile_time_ok cfg.
Proof.
  unfold FipsStartupCheck.compile_time_ok.
  destruct cfg as [[] [version |]]; cbn.
  - destruct (Z.le_gt_cases 5 version); [left | right]; [tauto | lia].
  - left. tauto.
  - right. intros [H _]. discriminate H.
  - right. intros [H _]. discriminate H.
Qed.

(** States a fact about the trace of a run as a fact about its events. *)
Ltac fold_events H :=
  repeat match type of H with
         | context [trace (snd ?r)] =>
             change (trace (snd r)) with (events r) in H
         end.

(** Both path facts at once, with the configuration split. *)
Ltac both_paths P cfg s0 :=
  let Hs := fresh "Hstartup" in
  let Ht := fresh "Htest" in
  let tr1 := fresh "tr" in
  let c1 := fresh "code" in
  let tr2 := fresh "tr" in
  let c2 := fresh "code" in
  destruct (startup_check_run P cfg s0) as [_ Hs];
  destruct (test_fips_run P cfg s0) as [_ Ht];
  set (tr1 := events (FipsStartupCheck.main P cfg (start s0))) in *;
  set (c1 := exit_code (FipsStartupCheck.main P cfg (start s0))) in *;
  set (tr2 := events (TestFips.main P cfg (start s0))) in *;
  set (c2 := exit_code (TestFips.main P cfg (start s0))) in *;
  clearbody tr1 c1 tr2 c2;
  destruct cfg as [[] [?version |]];
  inversion Hs; subst; clear Hs; inversion Ht; subst; clear Ht; cbn in *.

(** X10.  On a build that check 1 accepts, the two programs drive the
    library alike: the same calls with the same results in the same
    order, leaving the library in the same state.  Whatever provider
    [fips-startup-check] accepts, [test-fips] accepts as well. *)
Theorem programs_drive_library_alike {PS Sha} (P : Provider PS Sha) cfg s0 :
  (FipsStartupCheck.compile_time_ok cfg ->
   filter is_provider_call (events (FipsStartupCheck.main P cfg (start s0))) =
   filter is_provider_call (events (TestFips.main P cfg (start s0))) /\
   provider_state (snd (FipsStartupCheck.main P cfg (start s0))) =
   provider_state (snd (TestFips.main P cfg (start s0)))) /\
  (exit_code (FipsStartupCheck.main P cfg (start s0)) = 0 ->
   exit_code (TestFips.main P cfg (start s0)) = 0).
Proof.
  split.
  - intros Hok.
    pose proof (startup_check_session P cfg s0 Hok) as Hs.
    pose proof (test_fips_session P cfg s0) as Ht.
    rewrite <- Ht in Hs. unfold session_of in Hs.
    injection Hs as Hcalls Hstate. split; assumption.
  - assert (Hok_or := compile_time_ok_dec cfg).
    destruct Hok_or as [Hok | Hnot].
    + pose proof (startup_check_session P cfg s0 Hok) as Hs.
      pose proof (test_fips_session P cfg s0) as Ht.
      rewrite <- Ht in Hs. unfold session_of in Hs.
      injection Hs as Hcalls _. clear Ht Hok.
      fold_events Hcalls.
      both_paths P cfg s0.
      all: intros Hexit; try discriminate Hexit.
      all: try reflexivity.
      all: try discriminate Hcalls.
      all: injection Hcalls; intros; subst; contradiction.
    + pose proof (startup_check_no_session P cfg s0 Hnot) as Hs.
      unfold session_of in Hs. injection Hs as Hcalls _.
      fold_events Hcalls.
      startup_paths P cfg s0.
      all: intros Hexit; try discriminate Hexit.
      all: discriminate Hcalls.
Qed.

(** ** What the outcome does not depend on *)

Lemma library_session_seed_status {PS Sha} (P : Provider PS Sha) s0 k :
  filter not_seed_call (fst (library_session (with_seed_status k P) s0)) =
  filter not_seed_call (fst (library_session P s0)) /\
  snd (library_session (with_seed_status k P) s0) =
  snd (library_session P s0).
Proof.
  unfold library_session. cbn.
  repeat first [status_step | call_step].
  all: split; reflexivity.
Qed.

Lemma startup_check_path_modulo_seed cfg c1 t1 c2 t2 :
  FipsStartupCheck.path cfg c1 t1 ->
  FipsStartupCheck.path cfg c2 t2 ->
  filter not_seed_call (filter is_provider_call t1) =
  filter not_seed_call (filter is_provider_call t2) ->
  c1 = c2 /\ filter not_seed_call t1 = filter not_seed_call t2.
Proof.
  intros H1 H2.
  destruct cfg as [[] [version |]].
  all: inversion H1; subst; inversion H2; subst; cbn.
  all: intros E; try discriminate E.
  all: try (injection E; intros; subst).
  all: try contradiction.
  all: try (split; reflexivity).
  all: try (exfalso; eapply digests_differ_not_agree; eassumption).
  all: match goal with
       | H : HAVE_FIPS _ = _ |- _ => discriminate H
       end.
Qed.

Lemma test_fips_path_modulo_seed cfg c1 t1 c2 t2 :
  TestFips.path cfg c1 t1 ->
  TestFips.path cfg c2 t2 ->
  filter not_seed_call (filter is_provider_call t1) =
  filter not_seed_call (filter is_provider_call t2) ->
  c1 = c2 /\ filter not_seed_call t1 = filter not_seed_call t2.
Proof.
  intros H1 H2.
  destruct cfg as [[] [version |]].
  all: inversion H1; subst; inversion H2; subst; vm_compute.
  all: intros E; try discriminate E.
  all: try (injection E; intros; subst).
  all: try contradiction.
  all: split; reflexivity.
Qed.

(** X3.  Neither program looks at the status of [wc_SetSeed_Cb]: with
    that status replaced by any other value, the exit status, every
    event other than the registration itself and the final state of the
    library are the same.  A registration that fails goes unnoticed. *)
Theorem seed_status_is_ignored {PS Sha} (P : Provider PS Sha) cfg s0 k :
  (exit_code (FipsStartupCheck.main (with_seed_status k P) cfg (start s0)) =
   exit_code (FipsStartupCheck.main P cfg (start s0)) /\
   filter not_seed_call
     (events (FipsStartupCheck.main (with_seed_status k P) cfg (start s0))) =
   filter not_seed_call (events (FipsStartupCheck.main P cfg (start s0))) /\
   provider_state
     (snd (FipsStartupCheck.main (with_seed_status k P) cfg (start s0))) =
   provider_state (snd (FipsStartupCheck.main P cfg (start s0)))) /\
  (exit_code (TestFips.main (with_seed_status k P) cfg (start s0)) =
   exit_code (TestFips.main P cfg (start s0)) /\
   filter not_seed_call
     (events (TestFips.main (with_seed_status k P) cfg (start s0))) =
   filter not_seed_call (events (TestFips.main P cfg (start s0))) /\
   provider_state (snd (TestFips.main (with_seed_status k P) cfg (start s0))) =
   provider_state (snd (TestFips.main P cfg (start s0)))).
Proof.
  destruct (library_session_seed_status P s0 k) as [Hcalls Hstate].
  split.
  - assert (Hsession :
      filter not_seed_call
        (fst (session_of
           (snd (FipsStartupCheck.main (with_seed_status k P) cfg (start s0))))) =
      filter not_seed_call
        (fst (session_of (snd (FipsStartupCheck.main P cfg (start s0))))) /\
      snd (session_of
           (snd (FipsStartupCheck.main (with_seed_status k P) cfg (start s0)))) =
      snd (session_of (snd (FipsStartupCheck.main P cfg (start s0))))).
    { destruct (compile_time_ok_dec cfg) as [Hok | Hnot].
      - rewrite !startup_check_session by exact Hok.
        split; assumption.
      - rewrite !startup_check_no_session by exact Hnot.
        split; reflexivity. }
    destruct Hsession as [Hc Hs]. cbn [session_of fst snd] in Hc, Hs.
    destruct (startup_check_run (with_seed_status k P) cfg s0) as [_ Hp1].
    destruct (startup_check_run P cfg s0) as [_ Hp2].
    destruct (startup_check_path_modulo_seed _ _ _ _ _ Hp1 Hp2 Hc)
      as [Hcode Htrace].
    repeat split; assumption.
  - assert (Hsession :
      filter not_seed_call
        (fst (session_of
           (snd (TestFips.main (with_seed_status k P) cfg (start s0))))) =
      filter not_seed_call
        (fst (session_of (snd (TestFips.main P cfg (start s0))))) /\
      snd (session_of
           (snd (TestFips.main (with_seed_status k P) cfg (start s0)))) =
      snd (session_of (snd (TestFips.main P cfg (start s0))))).
    { rewrite !test_fips_session. split; assumption. }
    destruct Hsession as [Hc Hs]. cbn [session_of fst snd] in Hc, Hs.
    destruct (test_fips_run (with_seed_status k P) cfg s0) as [_ Hp1].
    destruct (test_fips_run P cfg s0) as [_ Hp2].
    destruct (test_fips_path_modulo_seed _ _ _ _ _ Hp1 Hp2 Hc)
      as [Hcode Htrace].
    repeat split; assumption.
Qed.

(** ** What the report says *)

(** X4.  The closing success line is printed exactly in the runs that
    return 0: "FIPS VALIDATION PASSED" for [fips-startup-check] and
    "ALL PASSED" for [test-fips]. *)
Theorem success_line_iff_exit_0 {PS Sha} (P : Provider PS Sha) cfg s0 :
  (In validation_passed (events (FipsStartupCheck.main P cfg (start s0))) <->
   exit_code (FipsStartupCheck.main P cfg (start s0)) = 0) /\
  (In test_all_passed (events (TestFips.main P cfg (start s0))) <->
   exit_code (TestFips.main P cfg (start s0)) = 0).
Proof.
  split.
  - startup_paths P cfg s0.
    all: split; intros H'.
    all: first
      [ reflexivity
      | discriminate H'
      | solve [in_trace H']
      | solve [unfold validation_passed; find_in] ].
  - test_paths P cfg s0.
    all: split; intros H'.
    all: first
      [ reflexivity
      | discriminate H'
      | solve [in_trace H']
      | solve [unfold test_all_passed; find_in] ].
Qed.

Lemma last_app_cons {A} (pre : list A) (x : A) (tl : list A) (d : A) :
  last (pre ++ x :: tl) d = last (x :: tl) d.
Proof.
  induction pre as [| a pre IH]; [reflexivity |].
  cbn [app]. rewrite <- IH.
  destruct pre; reflexivity.
Qed.

(** The last line printed by a rejection. *)
Ltac last_line H :=
  unfold FipsStartupCheck.FipsDisabled, FipsStartupCheck.FipsVersionTooLow,
    FipsStartupCheck.DigestMismatch, FipsStartupCheck.CastFailure,
    FipsStartupCheck.DigestInitFailure, FipsStartupCheck.DigestUpdateFailure,
    FipsStartupCheck.DigestFinalizeFailure, TestFips.CastFailure,
    TestFips.DigestInitFailure, TestFips.DigestUpdateFailure,
    TestFips.DigestFinalizeFailure in H;
  match type of H with
  | _ = (?pre ++ ?x :: ?tl)%list =>
      apply (f_equal (fun l => last l x)) in H;
      rewrite last_app_cons in H; cbn in H; discriminate H
  end.

(** X5.  A run returns 1 exactly when its trace ends with a diagnostic:
    for a failed library call, the call followed directly by the line
    that names it and carries its status; for [fips-startup-check] also
    the FIPS-disabled, version and mismatch diagnostics.  No run is
    rejected silently and no diagnostic ends an accepted run. *)
Theorem exit_1_iff_diagnostic {PS Sha} (P : Provider PS Sha) cfg s0 :
  (exit_code (FipsStartupCheck.main P cfg (start s0)) = 1 <->
   exists tail,
     startup_check_rejection tail /\
     exists pre,
       events (FipsStartupCheck.main P cfg (start s0)) = (pre ++ tail)%list) /\
  (exit_code (TestFips.main P cfg (start s0)) = 1 <->
   exists tail,
     test_fips_rejection tail /\
     exists pre, events (TestFips.main P cfg (start s0)) = (pre ++ tail)%list).
Proof.
  split.
  - startup_paths P cfg s0.
    all: split;
      [ intros Hexit; try discriminate Hexit
      | intros (tail & Hrej & pre & Hsplit); try reflexivity ].
    all: try first
      [ solve [eexists; split; [eapply rejects_disabled | split_trace]]
      | solve [eexists; split; [eapply rejects_version | split_trace]]
      | solve [eexists; split; [eapply rejects_mismatch | split_trace]]
      | solve [eexists; split; [eapply rejects_cast | split_trace];
               assumption]
      | solve [eexists; split; [eapply rejects_init | split_trace];
               assumption]
      | solve [eexists; split; [eapply rejects_update | split_trace];
               assumption]
      | solve [eexists; split; [eapply rejects_final | split_trace];
               assumption] ].
    all: exfalso; inversion Hrej; subst; last_line Hsplit.
  - test_paths P cfg s0.
    all: split;
      [ intros Hexit; try discriminate Hexit
      | intros (tail & Hrej & pre & Hsplit); try reflexivity ].
    all: try first
      [ solve [eexists; split; [eapply test_rejects_cast | split_trace];
               assumption]
      | solve [eexists; split; [eapply test_rejects_init | split_trace];
               assumption]
      | solve [eexists; split; [eapply test_rejects_update | split_trace];
               assumption]
      | solve [eexists; split; [eapply test_rejects_final | split_trace];
               assumption] ].
    all: exfalso; inversion Hrej; subst; last_line Hsplit.
Qed.

(** ** Order of report and calls *)

Lemma before_prefix (p : event -> bool) (pre : list event) x post :
  p x = true ->
  forall e, In e (before p (pre ++ x :: post)) -> In e pre.
Proof.
  intros Hx. induction pre as [| a pre IH]; intros e; cbn.
  - rewrite Hx. intros [].
  - destruct (p a); [intros [] |].
    intros [-> | Hin]; [left; reflexivity | right; apply IH, Hin].
Qed.

(** X6.  Each check is announced before the library is called for it,
    and the digest check does not start before the self-test has
    returned 0 and its success has been printed: whatever precedes the
    call of [wc_InitSha256] in the trace contains the self-test call
    with status 0, the CAST-passed line and the heading of the digest
    check; whatever precedes the self-test call contains its heading. *)
Theorem checks_reported_in_order {PS Sha} (P : Provider PS Sha) cfg s0 :
  (forall pre c post,
     events (FipsStartupCheck.main P cfg (start s0)) =
       (pre ++ Ev_InitSha256 c :: post)%list ->
     In (Ev_RunAllCast_fips 0) pre /\
     In FipsStartupCheck.cast_passed pre /\
     In FipsStartupCheck.digest_intro pre) /\
  (forall pre c post,
     events (FipsStartupCheck.main P cfg (start s0)) =
       (pre ++ Ev_RunAllCast_fips c :: post)%list ->
     In FipsStartupCheck.fips_enabled pre /\
     In FipsStartupCheck.cast_intro pre) /\
  (forall pre c post,
     events (TestFips.main P cfg (start s0)) =
       (pre ++ Ev_InitSha256 c :: post)%list ->
     In (Ev_RunAllCast_fips 0) pre /\
     In TestFips.cast_passed pre /\
     In TestFips.digest_intro pre) /\
  (forall pre c post,
     events (TestFips.main P cfg (start s0)) =
       (pre ++ Ev_RunAllCast_fips c :: post)%list ->
     In TestFips.cast_intro pre).
Proof.
  split; [| split; [| split]]; intros pre c post Hsplit.
  - assert (Hin : In (Ev_InitSha256 c)
                     (events (FipsStartupCheck.main P cfg (start s0))))
      by (rewrite Hsplit; apply in_elt).
    assert (Hpre : forall e,
      In e (before is_init_call
              (events (FipsStartupCheck.main P cfg (start s0)))) -> In e pre)
      by (rewrite Hsplit; apply before_prefix; reflexivity).
    clear Hsplit.
    repeat split; apply Hpre; clear Hpre.
    all: startup_paths P cfg s0; in_trace Hin; find_in.
  - assert (Hin : In (Ev_RunAllCast_fips c)
                     (events (FipsStartupCheck.main P cfg (start s0))))
      by (rewrite Hsplit; apply in_elt).
    assert (Hpre : forall e,
      In e (before is_cast_call
              (events (FipsStartupCheck.main P cfg (start s0)))) -> In e pre)
      by (rewrite Hsplit; apply before_prefix; reflexivity).
    clear Hsplit.
    repeat split; apply Hpre; clear Hpre.
    all: startup_paths P cfg s0; in_trace Hin; find_in.
  - assert (Hin : In (Ev_InitSha256 c)
                     (events (TestFips.main P cfg (start s0))))
      by (rewrite Hsplit; apply in_elt).
    assert (Hpre : forall e,
      In e (before is_init_call (events (TestFips.main P cfg (start s0)))) ->
      In e pre)
      by (rewrite Hsplit; apply before_prefix; reflexivity).
    clear Hsplit.
    repeat split; apply Hpre; clear Hpre.
    all: test_paths P cfg s0; in_trace Hin; find_in.
  - assert (Hpre : forall e,
      In e (before is_cast_call (events (TestFips.main P cfg (start s0)))) ->
      In e pre)
      by (rewrite Hsplit; apply before_prefix; reflexivity).
    clear Hsplit.
    apply Hpre; clear Hpre.
    test_paths P cfg s0; find_in.
Qed.

(** ** The loops *)

(** X8.  The comparison loop stops at the first index where [hash] and
    [expected] differ: its body runs once for every index up to and
    including that one and [match] is cleared; if there is no such
    index below 32 the body runs 32 times and [match] stays 1.  The
    loop leaves the trace and the library untouched. *)
Theorem compare_loop_stops_at_first_difference {PS} (hash : list byte)
    (w : World PS) :
  (FipsStartupCheck.digests_agree hash /\
   FipsStartupCheck.compare_loop hash w = (Normal (1, 32%nat), w)) \/
  (exists k,
     0 <= k < WC_SHA256_DIGEST_SIZE /\
     (forall j, 0 <= j < k ->
        index hash j = index FipsStartupCheck.expected j) /\
     index hash k <> index FipsStartupCheck.expected k /\
     FipsStartupCheck.compare_loop hash w = (Normal (0, S (Z.to_nat k)), w)).
Proof.
  unfold FipsStartupCheck.compare_loop, FipsStartupCheck.digests_agree.
  apply (for_loop_rule _ _
    (fun i m it w' =>
       w' = w /\ 0 <= i <= WC_SHA256_DIGEST_SIZE /\ it = Z.to_nat i /\ m = 1 /\
       forall j, 0 <= j < i ->
         index hash j = index FipsStartupCheck.expected j)).
  - intros i m it w' (-> & Hi & -> & -> & Hag) Hge.
    left. replace i with WC_SHA256_DIGEST_SIZE in * by lia.
    split; [exact Hag | reflexivity].
  - intros i m it w' (-> & Hi & -> & -> & Hag) Hlt.
    destruct (Byte.eqb (index hash i) (index FipsStartupCheck.expected i)) eqn:E;
      cbn.
    + apply Byte.byte_dec_bl in E.
      repeat split; try lia.
      intros j Hj.
      destruct (Z.eq_dec j i) as [-> | Hne]; [exact E | apply Hag; lia].
    + apply Byte.eqb_false in E.
      right. exists i. repeat split; try lia; assumption.
  - repeat split; unfold WC_SHA256_DIGEST_SIZE; try lia.
Qed.

Lemma byte_to_int_range (b : byte) : 0 <= byte_to_int b < 256.
Proof.
  unfold byte_to_int. pose proof (Byte.to_N_bounded b). lia.
Qed.

Lemma nth_seq_map {A B} (f : A -> B) (d : A) (l : list A) :
  map (fun i => f (nth i l d)) (seq 0 (List.length l)) = map f l.
Proof.
  induction l as [| a l IH]; [reflexivity |].
  cbn [List.length seq map nth].
  rewrite <- seq_shift, map_map. f_equal. exact IH.
Qed.

(** The printing loop emits one event per byte of a full buffer. *)
Lemma hex_dump_bytes (hash : list byte) :
  Z.of_nat (List.length hash) = WC_SHA256_DIGEST_SIZE ->
  TestFips.hex_dump hash =
  map (fun b => Ev_printf "%02x" [byte_to_int b]) hash.
Proof.
  intros Hlen. unfold TestFips.hex_dump.
  replace (Z.to_nat WC_SHA256_DIGEST_SIZE) with (List.length hash) by lia.
  rewrite <- (nth_seq_map (fun b => Ev_printf "%02x" [byte_to_int b])
                Byte.x00 hash).
  apply map_ext. intros i. unfold index. rewrite Nat2Z.id. reflexivity.
Qed.

Lemma filter_hex_dump (hash : list byte) :
  filter is_hex_line (map (fun b => Ev_printf "%02x" [byte_to_int b]) hash) =
  map (fun b => Ev_printf "%02x" [byte_to_int b]) hash.
Proof.
  induction hash as [| b hash IH]; [reflexivity |].
  cbn. rewrite IH. reflexivity.
Qed.

(** X7.  When [wc_Sha256Final] returns 0 and has filled the buffer,
    [test-fips] prints the digest it was handed: its [%02x] lines are,
    in order, exactly the 32 bytes of [hash], each a value below 256. *)
Theorem test_fips_prints_the_digest {PS Sha} (P : Provider PS Sha) cfg s0 hash :
  Z.of_nat (List.length hash) = WC_SHA256_DIGEST_SIZE ->
  In (Ev_Sha256Final 0 hash) (events (TestFips.main P cfg (start s0))) ->
  filter is_hex_line (events (TestFips.main P cfg (start s0))) =
    map (fun b => Ev_printf "%02x" [byte_to_int b]) hash /\
  forall v,
    In (Ev_printf "%02x" [v]) (events (TestFips.main P cfg (start s0))) ->
    0 <= v < 256.
Proof.
  intros Hlen Hfin.
  destruct (test_fips_run P cfg s0) as [_ Hpath].
  set (tr := events (TestFips.main P cfg (start s0))) in *.
  set (code := exit_code (TestFips.main P cfg (start s0))) in *.
  clearbody tr code.
  destruct cfg as [[] [version |]].
  all: inversion Hpath; subst; clear Hpath.
  all: unfold TestFips.AllPassed in *.
  all: try rewrite (hex_dump_bytes hash) in * by exact Hlen.
  all: cbn [TestFips.CastChecked TestFips.ConfigReported HAVE_FIPS
            HAVE_FIPS_VERSION app] in *.
  all: repeat (destruct Hfin as [Hfin | Hfin];
               [ try discriminate Hfin;
                 try (injection Hfin; intros; subst; contradiction) |]).
  all: try contradiction.
  all: injection Hfin as ->.
  all: rewrite (hex_dump_bytes hash) by exact Hlen.
  all: split.
  all: try (cbn; rewrite filter_app, filter_hex_dump; cbn;
            apply app_nil_r).
  all: intros v Hin.
  all: repeat (destruct Hin as [Hin | Hin]; [discriminate Hin |]).
  all: apply in_app_or in Hin; destruct Hin as [Hin | Hin].
  all: try (apply in_map_iff in Hin; destruct Hin as (b & Heq & _);
            injection Heq as <-; apply byte_to_int_range).
  all: in_trace Hin.
Qed.

(** ** The arguments of [printf] *)

(** X9.  Every [printf] of either program is handed exactly as many
    arguments as its format has conversion specifications: none for a
    plain line, one for a line with [%d] or [%02x]. *)
Theorem printf_arguments_match_format {PS Sha} (P : Provider PS Sha) cfg s0 :
  (forall fmt args,
     In (Ev_printf fmt args) (events (FipsStartupCheck.main P cfg (start s0))) ->
     List.length args = conversions fmt) /\
  (forall fmt args,
     In (Ev_printf fmt args) (events (TestFips.main P cfg (start s0))) ->
     List.length args = conversions fmt).
Proof.
  split; intros fmt args.
  - startup_paths P cfg s0.
    all: intros Hin; in_trace Hin; reflexivity.
  - test_paths P cfg s0.
    all: intros Hin; in_trace Hin; reflexivity.
Qed.

(** ** The further properties at concrete inputs *)

(** The nominal run of [fips-startup-check], cut at the call of
    [wc_InitSha256]. *)
Lemma checks_reported_witness :
  events (FipsStartupCheck.main sha256_provider fips_v5 (start None)) =
    ((FipsStartupCheck.CompileTimeChecked fips_v5 ++
      [ FipsStartupCheck.cast_intro; Ev_SetSeed_Cb wc_GenerateSeed 0;
        Ev_RunAllCast_fips 0; FipsStartupCheck.cast_passed;
        FipsStartupCheck.digest_intro ]) ++
     Ev_InitSha256 0 ::
     [ Ev_Sha256Update (list_byte_of_string "abc") 3 0;
       Ev_Sha256Final 0 FipsStartupCheck.expected ] ++
     FipsStartupCheck.Authorized)%list /\
  In FipsStartupCheck.cast_passed
    (FipsStartupCheck.CompileTimeChecked fips_v5 ++
     [ FipsStartupCheck.cast_intro; Ev_SetSeed_Cb wc_GenerateSeed 0;
       Ev_RunAllCast_fips 0; FipsStartupCheck.cast_passed;
       FipsStartupCheck.digest_intro ]).
Proof.
  assert (Hsplit :
    events (FipsStartupCheck.main sha256_provider fips_v5 (start None)) =
      ((FipsStartupCheck.CompileTimeChecked fips_v5 ++
        [ FipsStartupCheck.cast_intro; Ev_SetSeed_Cb wc_GenerateSeed 0;
          Ev_RunAllCast_fips 0; FipsStartupCheck.cast_passed;
          FipsStartupCheck.digest_intro ]) ++
       Ev_InitSha256 0 ::
       [ Ev_Sha256Update (list_byte_of_string "abc") 3 0;
         Ev_Sha256Final 0 FipsStartupCheck.expected ] ++
       FipsStartupCheck.Authorized)%list)
    by (vm_compute; reflexivity).
  split; [exact Hsplit |].
  exact (proj1 (proj2 (proj1 (checks_reported_in_order
                  sha256_provider fips_v5 None) _ _ _ Hsplit))).
Defined.

(** [test-fips] prints the expected digest when handed it. *)
Lemma test_fips_prints_witness :
  Z.of_nat (List.length FipsStartupCheck.expected) = WC_SHA256_DIGEST_SIZE /\
  In (Ev_Sha256Final 0 FipsStartupCheck.expected)
     (events (TestFips.main passing_provider fips_v5 (start tt))) /\
  filter is_hex_line
    (events (TestFips.main passing_provider fips_v5 (start tt))) =
  map (fun b => Ev_printf "%02x" [byte_to_int b]) FipsStartupCheck.expected.
Proof.
  assert (Hin :
    In (Ev_Sha256Final 0 FipsStartupCheck.expected)
       (events (TestFips.main passing_provider fips_v5 (start tt))))
    by in_run.
  split; [reflexivity | split; [exact Hin |]].
  exact (proj1 (test_fips_prints_the_digest passing_provider fips_v5 tt
                  FipsStartupCheck.expected eq_refl Hin)).
Defined.

(** The version line of [test-fips] has one conversion and one argument. *)
Lemma printf_arguments_witness :
  In (Ev_printf "FIPS version: %d\n" [5])
     (events (TestFips.main passing_provider fips_v5 (start tt))) /\
  List.length [5] = conversions "FIPS version: %d\n".
Proof.
  assert (Hin :
    In (Ev_printf "FIPS version: %d\n" [5])
       (events (TestFips.main passing_provider fips_v5 (start tt))))
    by in_run.
  split; [exact Hin |].
  exact (proj2 (printf_arguments_match_format passing_provider fips_v5 tt)
           _ _ Hin).
Defined.

(** A provider that both programs accept on a build of version 5. *)
Lemma programs_alike_witness :
  FipsStartupCheck.compile_time_ok fips_v5 /\
  exit_code (FipsStartupCheck.main passing_provider fips_v5 (start tt)) = 0 /\
  exit_code (TestFips.main passing_provider fips_v5 (start tt)) = 0 /\
  filter is_provider_call
    (events (FipsStartupCheck.main passing_provider fips_v5 (start tt))) =
  filter is_provider_call
    (events (TestFips.main passing_provider fips_v5 (start tt))).
Proof.
  assert (Hok : FipsStartupCheck.compile_time_ok fips_v5)
    by (split; [reflexivity | discriminate]).
  assert (Hexit :
    exit_code (FipsStartupCheck.main passing_provider fips_v5 (start tt)) = 0)
    by (vm_compute; reflexivity).
  split; [exact Hok | split; [exact Hexit | split]].
  - exact (proj2 (programs_drive_library_alike passing_provider fips_v5 tt)
             Hexit).
  - exact (proj1 (proj1 (programs_drive_library_alike
                           passing_provider fips_v5 tt) Hok)).
Defined.
